(** * The tf.data input pipeline builder of object_detection

    A shallow embedding of
    [research/object_detection/builders/dataset_builder.py]: the three
    functions [make_initializable_iterator], [read_dataset] and [build],
    over a model of the part of the tf.data API they call.

    The builder only assembles a pipeline; it never iterates over it.  A
    [Dataset] is therefore the expression the Python code builds, one
    constructor per library call, and the functions below return such
    expressions.  The element sequences a pipeline yields are given by
    [elements], following the documented behaviour of every call.

    A library call can also refuse its arguments and raise while the
    builder runs.  [raising.read_dataset] and [raising.build] are the
    same two functions with these exceptions, for any behaviour of the
    libraries; they return the pipeline of [dataset_builder] when every
    call is accepted. *)

From Stdlib Require Import ZArith List Lia.
From stdpp Require Import base list gmap strings pretty.

Local Open Scope string_scope.
Local Open Scope list_scope.
Local Open Scope Z_scope.

(** ** Python values *)

(** Truth value of an optional integer argument ([if batch_size:]):
    [None] and [0] are false, every other integer is true. *)
Definition truthy (x : option Z) : bool :=
  match x with
  | None => false
  | Some n => negb (n =? 0)
  end.

(** [x or None] on an integer: a zero becomes [None]. *)
Definition or_None (x : Z) : option Z :=
  if x =? 0 then None else Some x.

(** ** The tf.data calls used by the builder *)

Module tf.

(** A dataset expression, indexed by the type of its elements.  Reading
    from the innermost constructor outwards gives the order in which the
    pipeline processes data. *)
Inductive Dataset : Type -> Type :=
| from_tensor_slices {A : Type} (tensors : list A) : Dataset A
| TFRecordDataset (filenames : string) (buffer_size : Z) : Dataset string
| shuffle {A : Type} (buffer_size : Z) (self : Dataset A) : Dataset A
| repeat {A : Type} (count : option Z) (self : Dataset A) : Dataset A
| parallel_interleave {A B : Type} (map_func : A -> Dataset B)
    (cycle_length block_length : Z) (sloppy : bool)
    (self : Dataset A) : Dataset B
| shard {A : Type} (num_shards index : Z) (self : Dataset A) : Dataset A
| map {A B : Type} (map_func : A -> B) (num_parallel_calls : Z)
    (self : Dataset A) : Dataset B
| batch_and_drop_remainder {A : Type} (batch_size : Z)
    (self : Dataset A) : Dataset (list A)
| prefetch {A : Type} (buffer_size : Z) (self : Dataset A) : Dataset A.

(** A dataset of any element type: what a Python variable holding a
    dataset contains. *)
Definition AnyDataset : Type := { A : Type & Dataset A }.

Definition pack {A : Type} (d : Dataset A) : AnyDataset := existT A d.

(** The calls of a pipeline, with their arguments. *)
Inductive Step : Type :=
| from_tensor_slices_step
| TFRecordDataset_step (buffer_size : Z)
| shuffle_step (buffer_size : Z)
| repeat_step (count : option Z)
| parallel_interleave_step (cycle_length block_length : Z) (sloppy : bool)
| shard_step (num_shards index : Z)
| map_step (num_parallel_calls : Z)
| batch_and_drop_remainder_step (batch_size : Z)
| prefetch_step (buffer_size : Z).

(** The calls of a pipeline from its source to its last transformation. *)
Fixpoint steps {A : Type} (d : Dataset A) : list Step :=
  match d with
  | from_tensor_slices _ => [from_tensor_slices_step]
  | TFRecordDataset _ b => [TFRecordDataset_step b]
  | shuffle b d' => steps d' ++ [shuffle_step b]
  | repeat c d' => steps d' ++ [repeat_step c]
  | parallel_interleave _ cl bl sl d' =>
      steps d' ++ [parallel_interleave_step cl bl sl]
  | shard n i d' => steps d' ++ [shard_step n i]
  | map _ n d' => steps d' ++ [map_step n]
  | batch_and_drop_remainder b d' =>
      steps d' ++ [batch_and_drop_remainder_step b]
  | prefetch b d' => steps d' ++ [prefetch_step b]
  end.

(** The kind of a call, its arguments left out. *)
Inductive Kind : Type :=
| from_tensor_slices_kind
| TFRecordDataset_kind
| shuffle_kind
| repeat_kind
| parallel_interleave_kind
| shard_kind
| map_kind
| batch_and_drop_remainder_kind
| prefetch_kind.

#[global] Instance Kind_eq_dec : EqDecision Kind.
Proof. solve_decision. Defined.

Definition kind (s : Step) : Kind :=
  match s with
  | from_tensor_slices_step => from_tensor_slices_kind
  | TFRecordDataset_step _ => TFRecordDataset_kind
  | shuffle_step _ => shuffle_kind
  | repeat_step _ => repeat_kind
  | parallel_interleave_step _ _ _ => parallel_interleave_kind
  | shard_step _ _ => shard_kind
  | map_step _ => map_kind
  | batch_and_drop_remainder_step _ => batch_and_drop_remainder_kind
  | prefetch_step _ => prefetch_kind
  end.

(** The calls of one kind among the calls of a pipeline, in order. *)
Definition of_kind (k : Kind) (l : list Step) : list Step :=
  filter (fun s => kind s = k) l.

(** The dataset a [parallel_interleave] reads its input elements from
    (the outermost one, if the pipeline has several). *)
Fixpoint interleave_input {A : Type} (d : Dataset A) : option AnyDataset :=
  match d with
  | from_tensor_slices _ => None
  | TFRecordDataset _ _ => None
  | parallel_interleave _ _ _ _ d' => Some (pack d')
  | shuffle _ d' => interleave_input d'
  | repeat _ d' => interleave_input d'
  | shard _ _ d' => interleave_input d'
  | map _ _ d' => interleave_input d'
  | batch_and_drop_remainder _ d' => interleave_input d'
  | prefetch _ d' => interleave_input d'
  end.

(** A list of any element type. *)
Definition AnyList : Type := { B : Type & list B }.

Definition pack_list {B : Type} (l : list B) : AnyList := existT B l.

(** The tensors a pipeline starts from: the argument of its
    [from_tensor_slices]. *)
Fixpoint source_tensors {A : Type} (d : Dataset A) : option AnyList :=
  match d with
  | from_tensor_slices l => Some (pack_list l)
  | TFRecordDataset _ _ => None
  | parallel_interleave _ _ _ _ d' => source_tensors d'
  | shuffle _ d' => source_tensors d'
  | repeat _ d' => source_tensors d'
  | shard _ _ d' => source_tensors d'
  | map _ _ d' => source_tensors d'
  | batch_and_drop_remainder _ d' => source_tensors d'
  | prefetch _ d' => source_tensors d'
  end.

(** *** Element sequences *)

(** What a dataset yields when iterated: a finite sequence, or one that
    never ends. *)
Inductive Seq (A : Type) : Type :=
| Fin (l : list A)
| Inf (f : nat -> A).
Arguments Fin {A} l.
Arguments Inf {A} f.

(** The first [k] elements of a sequence. *)
Definition first {A : Type} (k : nat) (s : Seq A) : list A :=
  match s with
  | Fin l => take k l
  | Inf f => f <$> seq 0 k
  end.

(** [repeat(count)]: [count] passes over the input; [None] or a negative
    count repeats without end, [0] yields nothing. *)
Definition repeat_elements {A : Type} (count : option Z) (s : Seq A) : Seq A :=
  match s with
  | Inf f => Inf f
  | Fin l =>
      match count with
      | Some (Zpos p) => Fin (mjoin (replicate (Pos.to_nat p) l))
      | Some Z0 => Fin []
      | Some (Zneg _) | None =>
          match l with
          | [] => Fin []
          | x :: _ => Inf (fun i => nth (i mod length l)%nat l x)
          end
      end
  end.

(** [shard(num_shards, index)]: the elements at positions
    [index], [index + num_shards], [index + 2 * num_shards], ... *)
Definition shard_elements {A : Type} (num_shards index : Z) (s : Seq A) : Seq A :=
  if (0 <? num_shards) && (0 <=? index) && (index <? num_shards) then
    let n := Z.to_nat num_shards in
    let i := Z.to_nat index in
    match s with
    | Fin l => Fin (omap (fun j => l !! (n * j + i)%nat) (seq 0 (length l)))
    | Inf f => Inf (fun j => f (n * j + i)%nat)
    end
  else Fin [].

(** A finite input cut into batches of [n] elements; what is left after
    the last full batch is dropped. *)
Definition batches {A : Type} (n : nat) (l : list A) : list (list A) :=
  (fun j => take n (drop (n * j) l)) <$> seq 0 (length l / n).

(** [batch_and_drop_remainder(batch_size)]; a batch size that is not
    positive is refused by the library, so nothing is yielded. *)
Definition batch_elements {A : Type} (batch_size : Z) (s : Seq A) : Seq (list A) :=
  if 0 <? batch_size then
    let n := Z.to_nat batch_size in
    match s with
    | Fin l => Fin (batches n l)
    | Inf f => Inf (fun j => f <$> seq (n * j) n)
    end
  else Fin [].

Definition map_elements {A B : Type} (g : A -> B) (s : Seq A) : Seq B :=
  match s with
  | Fin l => Fin (g <$> l)
  | Inf f => Inf (fun i => g (f i))
  end.

(** What the builder does not decide: the content of the record files
    and the order chosen by the library where it is random or depends
    on the timing of its reader threads. *)
Record Runtime : Type := {
  file_records : string -> list string;
  shuffle_order : forall A : Type, Z -> Seq A -> Seq A;
  interleave_order : forall A B : Type,
    (A -> Seq B) -> Z -> Z -> bool -> Seq A -> Seq B
}.

Fixpoint elements (rt : Runtime) {A : Type} (d : Dataset A) : Seq A :=
  match d in Dataset T return Seq T with
  | from_tensor_slices l => Fin l
  | TFRecordDataset f _ => Fin (file_records rt f)
  | shuffle b d' => shuffle_order rt _ b (elements rt d')
  | repeat c d' => repeat_elements c (elements rt d')
  | parallel_interleave g cl bl sl d' =>
      interleave_order rt _ _ (fun a => elements rt (g a)) cl bl sl
        (elements rt d')
  | shard n i d' => shard_elements n i (elements rt d')
  | map g _ d' => map_elements g (elements rt d')
  | batch_and_drop_remainder b d' => batch_elements b (elements rt d')
  | prefetch _ d' => elements rt d'
  end.

(** A property of every element a dataset yields. *)
Definition every_element {A : Type} (P : A -> Prop) (s : Seq A) : Prop :=
  match s with
  | Fin l => Forall P l
  | Inf f => forall i : nat, P (f i)
  end.

(** *** Iterators and the graph *)

Inductive Operation : Type :=
| make_iterator (dataset : AnyDataset).

Record Iterator : Type := {
  iterator_dataset : AnyDataset;
  initializer : Operation
}.

(** [dataset.make_initializable_iterator()] *)
Definition Dataset_make_initializable_iterator (dataset : AnyDataset) : Iterator :=
  {| iterator_dataset := dataset; initializer := make_iterator dataset |}.

Module GraphKeys.
Definition TABLE_INITIALIZERS : string := "table_initializer".
End GraphKeys.

End tf.

(** ** The input reader configuration (input_reader_pb2) *)

Module input_reader_pb2.

Record TFRecordInputReader : Type := {
  input_path : list string
}.

(** The [input_reader] oneof: unset, or exactly one member set. *)
Inductive input_reader_oneof : Type :=
| oneof_unset
| oneof_tf_record_input_reader (r : TFRecordInputReader)
| oneof_external_input_reader.

(** The fields of the message that the builder reads.  An optional
    field whose presence is tested with [HasField] is an [option]. *)
Record InputReader : Type := {
  label_map_path : option string;
  shuffle : bool;
  shuffle_buffer_size : Z;
  filenames_shuffle_buffer_size : Z;
  num_epochs : Z;
  sample_1_of_n_examples : Z;
  num_readers : Z;
  num_parallel_batches : Z;
  num_prefetch_batches : Z;
  read_block_length : Z;
  num_parallel_map_calls : Z;
  num_additional_channels : Z;
  load_instance_masks : bool;
  mask_type : Z;
  use_display_name : bool;
  input_reader : input_reader_oneof
}.

(** [msg.WhichOneof('input_reader')]: the name of the member that is
    set, [None] when none is. *)
Definition WhichOneof (msg : InputReader) : option string :=
  match input_reader msg with
  | oneof_unset => None
  | oneof_tf_record_input_reader _ => Some "tf_record_input_reader"
  | oneof_external_input_reader => Some "external_input_reader"
  end.

(** [msg.tf_record_input_reader]: reading a member that is not set
    gives the default message, whose repeated fields are empty. *)
Definition tf_record_input_reader (msg : InputReader) : TFRecordInputReader :=
  match input_reader msg with
  | oneof_tf_record_input_reader r => r
  | _ => {| input_path := [] |}
  end.

End input_reader_pb2.

(** ** The example decoder (tf_example_decoder) *)

Module tf_example_decoder.

(** The arguments the decoder is constructed with. *)
Record TfExampleDecoder : Type := {
  load_instance_masks : bool;
  instance_mask_type : Z;
  label_map_proto_file : option string;
  use_display_name : bool;
  num_additional_channels : Z
}.

End tf_example_decoder.

(** ** Effects: exceptions, the log and the graph collections *)

Inductive Exception : Type :=
| ValueError (message : string).

(** The state the builder functions act on: the collections of the
    default graph and the warnings written to the log. *)
Record World : Type := {
  collections : gmap string (list tf.Operation);
  warnings : list string
}.

Definition M (A : Type) : Type := World -> (Exception + A) * World.

#[global] Instance M_ret : MRet M := fun A x w => (inr x, w).

#[global] Instance M_bind : MBind M := fun A B k c w =>
  match c w with
  | (inl e, w') => (inl e, w')
  | (inr x, w') => k x w'
  end.

Definition raise {A : Type} (e : Exception) : M A := fun w => (inl e, w).

(** [tf.logging.warning(msg)] *)
Definition logging_warning (msg : string) : M unit :=
  fun w => (inr tt, {| collections := collections w;
                       warnings := warnings w ++ [msg] |}).

(** [tf.add_to_collection(name, value)]: the value is appended to the
    list stored under [name], which is created when absent. *)
Definition add_to_collection (name : string) (value : tf.Operation) : M unit :=
  fun w => (inr tt,
            {| collections :=
                 <[name := default [] (collections w !! name) ++ [value]]>
                   (collections w);
               warnings := warnings w |}).

(** [if c: body], for a body run for its effects only. *)
Definition when (c : bool) (body : M unit) : M unit :=
  if c then body else mret tt.

(** The integer held by an argument known to be true. *)
Definition int_value (x : option Z) : Z := default 0 x.

(** [len(l)] *)
Definition len {A : Type} (l : list A) : Z := Z.of_nat (length l).

(** ** dataset_builder.py *)

Module dataset_builder.

(** An argument that is expected to be an [InputReader] message; Python
    lets the caller pass anything. *)
Inductive PyObject : Type :=
| InputReader_object (msg : input_reader_pb2.InputReader)
| other_object.

Section builder.

(** The type of the decoded tensors of one example. *)
Context {Tensors : Type}.

(** [tf.gfile.Glob]: the files on disk matching a list of patterns. *)
Variable Glob : list string -> list string.

(** [decoder.decode(value)] of tf_example_decoder. *)
Variable decode : tf_example_decoder.TfExampleDecoder -> string -> Tensors.

Definition make_initializable_iterator (dataset : tf.AnyDataset) : M tf.Iterator :=
  let iterator := tf.Dataset_make_initializable_iterator dataset in
  add_to_collection tf.GraphKeys.TABLE_INITIALIZERS (tf.initializer iterator);;
  mret iterator.

Definition read_dataset {B : Type} (file_read_func : string -> tf.Dataset B)
    (input_files : list string) (config : input_reader_pb2.InputReader)
    : M (tf.Dataset B) :=
  let filenames := Glob input_files in
  let num_readers := input_reader_pb2.num_readers config in
  num_readers ←
    (if num_readers >? len filenames then
       let num_readers := len filenames in
       logging_warning ("num_readers has been reduced to "
                        +:+ pretty num_readers
                        +:+ " to match input file shards.");;
       mret num_readers
     else mret num_readers);
  let filename_dataset := tf.from_tensor_slices filenames in
  filename_dataset ←
    (if input_reader_pb2.shuffle config then
       mret (tf.shuffle
               (input_reader_pb2.filenames_shuffle_buffer_size config)
               filename_dataset)
     else
       when (num_readers >? 1)
         (logging_warning
            ("`shuffle` is false, but the input data stream is "
             +:+ "still slightly shuffled since `num_readers` > 1."));;
       mret filename_dataset);
  let filename_dataset :=
    tf.repeat (or_None (input_reader_pb2.num_epochs config))
      filename_dataset in
  let records_dataset :=
    tf.parallel_interleave file_read_func num_readers
      (input_reader_pb2.read_block_length config)
      (input_reader_pb2.shuffle config)
      filename_dataset in
  let records_dataset :=
    if input_reader_pb2.shuffle config then
      tf.shuffle (input_reader_pb2.shuffle_buffer_size config)
        records_dataset
    else records_dataset in
  mret records_dataset.

(** The closure [process_fn] of [build], with the two variables it
    captures as arguments. *)
Definition process_fn (decoder : tf_example_decoder.TfExampleDecoder)
    (transform_input_data_fn : option (Tensors -> Tensors))
    (value : string) : Tensors :=
  let processed_tensors := decode decoder value in
  let processed_tensors :=
    match transform_input_data_fn with
    | Some fn => fn processed_tensors
    | None => processed_tensors
    end in
  processed_tensors.

Definition build (input_reader_config : PyObject) (batch_size : option Z)
    (transform_input_data_fn : option (Tensors -> Tensors))
    : M tf.AnyDataset :=
  match input_reader_config with
  | other_object =>
      raise (ValueError ("input_reader_config not of type "
                         +:+ "input_reader_pb2.InputReader."))
  | InputReader_object input_reader_config =>
      if decide (input_reader_pb2.WhichOneof input_reader_config
                 = Some "tf_record_input_reader") then
        let config :=
          input_reader_pb2.tf_record_input_reader input_reader_config in
        match input_reader_pb2.input_path config with
        | [] =>
            raise (ValueError
                     ("At least one input path must be specified in "
                      +:+ "`input_reader_config`."))
        | _ :: _ =>
            let label_map_proto_file :=
              match input_reader_pb2.label_map_path input_reader_config with
              | Some path => Some path
              | None => None
              end in
            let decoder :=
              {| tf_example_decoder.load_instance_masks :=
                   input_reader_pb2.load_instance_masks input_reader_config;
                 tf_example_decoder.instance_mask_type :=
                   input_reader_pb2.mask_type input_reader_config;
                 tf_example_decoder.label_map_proto_file :=
                   label_map_proto_file;
                 tf_example_decoder.use_display_name :=
                   input_reader_pb2.use_display_name input_reader_config;
                 tf_example_decoder.num_additional_channels :=
                   input_reader_pb2.num_additional_channels
                     input_reader_config |} in
            dataset ←
              read_dataset
                (fun filenames =>
                   tf.TFRecordDataset filenames (8 * 1000 * 1000))
                (input_reader_pb2.input_path config)
                input_reader_config;
            let dataset :=
              if input_reader_pb2.sample_1_of_n_examples input_reader_config
                 >? 1 then
                tf.shard
                  (input_reader_pb2.sample_1_of_n_examples
                     input_reader_config) 0 dataset
              else dataset in
            let num_parallel_calls :=
              if truthy batch_size then
                int_value batch_size
                * input_reader_pb2.num_parallel_batches input_reader_config
              else
                input_reader_pb2.num_parallel_map_calls
                  input_reader_config in
            let dataset :=
              tf.map (process_fn decoder transform_input_data_fn)
                num_parallel_calls dataset in
            let dataset : tf.AnyDataset :=
              if truthy batch_size then
                tf.pack (tf.batch_and_drop_remainder
                           (int_value batch_size) dataset)
              else tf.pack dataset in
            let dataset : tf.AnyDataset :=
              tf.pack (tf.prefetch
                         (input_reader_pb2.num_prefetch_batches
                            input_reader_config)
                         (projT2 dataset)) in
            mret dataset
        end
      else raise (ValueError "Unsupported input_reader_config.")
  end.

End builder.

End dataset_builder.


(** ** The builder with the exceptions of the library calls

    The constructors of [tf.Dataset] record which calls the builder
    makes; they cannot fail.  The library calls can: each checks its
    arguments while the builder runs and raises when it refuses them (the
    interleave when the glob expansion matched no file, the batching on a
    negative batch size, the map on a number of parallel calls that is
    too large).  Which calls are refused is the library's business, so it
    is a parameter here; an exception of a library call is not caught by
    the builder and reaches its caller. *)

(** A Python exception raised inside a library call. *)
Record PyException : Type := {
  exception_class : string;
  exception_message : string
}.

(** The answer of the libraries to the calls of the builder: for every
    dataset call and for the construction of the decoder, the exception
    it raises, [None] when the call is accepted. *)
Record Library : Type := {
  dataset_error : forall A : Type, tf.Dataset A -> option PyException;
  decoder_error : tf_example_decoder.TfExampleDecoder -> option PyException
}.

(** The last call of a dataset expression is accepted. *)
Definition accepts (lib : Library) {A : Type} (d : tf.Dataset A) : bool :=
  match dataset_error lib A d with
  | None => true
  | Some _ => false
  end.

(** The construction of the decoder is accepted. *)
Definition accepts_decoder (lib : Library)
    (decoder : tf_example_decoder.TfExampleDecoder) : bool :=
  match decoder_error lib decoder with
  | None => true
  | Some _ => false
  end.

(** Every call of a dataset expression is accepted. *)
Fixpoint accepted (lib : Library) {A : Type} (d : tf.Dataset A) : bool :=
  accepts lib d
  && match d with
     | tf.from_tensor_slices _ => true
     | tf.TFRecordDataset _ _ => true
     | tf.shuffle _ d' => accepted lib d'
     | tf.repeat _ d' => accepted lib d'
     | tf.parallel_interleave _ _ _ _ d' => accepted lib d'
     | tf.shard _ _ d' => accepted lib d'
     | tf.map _ _ d' => accepted lib d'
     | tf.batch_and_drop_remainder _ d' => accepted lib d'
     | tf.prefetch _ d' => accepted lib d'
     end.

(** What ends a call of the builder early: a [raise] statement of the
    builder itself, or an exception of a library call passing through. *)
Inductive Raised : Type :=
| raised_by_builder (e : Exception)
| raised_by_library (e : PyException).

(** The exception the caller sees is a ValueError. *)
Definition is_ValueError (r : Raised) : bool :=
  match r with
  | raised_by_builder (ValueError _) => true
  | raised_by_library e => String.eqb (exception_class e) "ValueError"
  end.

Definition R (A : Type) : Type := World -> (Raised + A) * World.

#[global] Instance R_ret : MRet R := fun A x w => (inr x, w).

#[global] Instance R_bind : MBind R := fun A B k c w =>
  match c w with
  | (inl e, w') => (inl e, w')
  | (inr x, w') => k x w'
  end.

(** A step of the builder that calls no library function that can
    refuse: logging, or a [raise] statement. *)
Definition lift {A : Type} (c : M A) : R A :=
  fun w =>
    match c w with
    | (inl e, w') => (inl (raised_by_builder e), w')
    | (inr x, w') => (inr x, w')
    end.

(** A dataset call: the dataset it builds, or the exception of the
    library. *)
Definition library_call (lib : Library) {A : Type} (d : tf.Dataset A)
    : R (tf.Dataset A) :=
  fun w =>
    match dataset_error lib A d with
    | Some e => (inl (raised_by_library e), w)
    | None => (inr d, w)
    end.

(** [tf_example_decoder.TfExampleDecoder(...)] *)
Definition construct_decoder (lib : Library)
    (decoder : tf_example_decoder.TfExampleDecoder)
    : R tf_example_decoder.TfExampleDecoder :=
  fun w =>
    match decoder_error lib decoder with
    | Some e => (inl (raised_by_library e), w)
    | None => (inr decoder, w)
    end.

Module raising.

Section builder.

Context {Tensors : Type}.

Variable lib : Library.
Variable Glob : list string -> list string.
Variable decode : tf_example_decoder.TfExampleDecoder -> string -> Tensors.

Definition read_dataset {B : Type} (file_read_func : string -> tf.Dataset B)
    (input_files : list string) (config : input_reader_pb2.InputReader)
    : R (tf.Dataset B) :=
  let filenames := Glob input_files in
  let num_readers := input_reader_pb2.num_readers config in
  num_readers ←
    (if num_readers >? len filenames then
       let num_readers := len filenames in
       lift (logging_warning ("num_readers has been reduced to "
                              +:+ pretty num_readers
                              +:+ " to match input file shards."));;
       mret num_readers
     else mret num_readers);
  filename_dataset ← library_call lib (tf.from_tensor_slices filenames);
  filename_dataset ←
    (if input_reader_pb2.shuffle config then
       library_call lib
         (tf.shuffle (input_reader_pb2.filenames_shuffle_buffer_size config)
            filename_dataset)
     else
       lift (when (num_readers >? 1)
               (logging_warning
                  ("`shuffle` is false, but the input data stream is "
                   +:+ "still slightly shuffled since `num_readers` > 1.")));;
       mret filename_dataset);
  filename_dataset ←
    library_call lib
      (tf.repeat (or_None (input_reader_pb2.num_epochs config))
         filename_dataset);
  records_dataset ←
    library_call lib
      (tf.parallel_interleave file_read_func num_readers
         (input_reader_pb2.read_block_length config)
         (input_reader_pb2.shuffle config)
         filename_dataset);
  records_dataset ←
    (if input_reader_pb2.shuffle config then
       library_call lib
         (tf.shuffle (input_reader_pb2.shuffle_buffer_size config)
            records_dataset)
     else mret records_dataset);
  mret records_dataset.

Definition build (input_reader_config : dataset_builder.PyObject)
    (batch_size : option Z)
    (transform_input_data_fn : option (Tensors -> Tensors))
    : R tf.AnyDataset :=
  match input_reader_config with
  | dataset_builder.other_object =>
      lift (raise (ValueError ("input_reader_config not of type "
                               +:+ "input_reader_pb2.InputReader.")))
  | dataset_builder.InputReader_object input_reader_config =>
      if decide (input_reader_pb2.WhichOneof input_reader_config
                 = Some "tf_record_input_reader") then
        let config :=
          input_reader_pb2.tf_record_input_reader input_reader_config in
        match input_reader_pb2.input_path config with
        | [] =>
            lift (raise (ValueError
                           ("At least one input path must be specified in "
                            +:+ "`input_reader_config`.")))
        | _ :: _ =>
            let label_map_proto_file :=
              match input_reader_pb2.label_map_path input_reader_config with
              | Some path => Some path
              | None => None
              end in
            decoder ←
              construct_decoder lib
                {| tf_example_decoder.load_instance_masks :=
                     input_reader_pb2.load_instance_masks input_reader_config;
                   tf_example_decoder.instance_mask_type :=
                     input_reader_pb2.mask_type input_reader_config;
                   tf_example_decoder.label_map_proto_file :=
                     label_map_proto_file;
                   tf_example_decoder.use_display_name :=
                     input_reader_pb2.use_display_name input_reader_config;
                   tf_example_decoder.num_additional_channels :=
                     input_reader_pb2.num_additional_channels
                       input_reader_config |};
            dataset ←
              read_dataset
                (fun filenames =>
                   tf.TFRecordDataset filenames (8 * 1000 * 1000))
                (input_reader_pb2.input_path config)
                input_reader_config;
            dataset ←
              (if input_reader_pb2.sample_1_of_n_examples input_reader_config
                  >? 1 then
                 library_call lib
                   (tf.shard
                      (input_reader_pb2.sample_1_of_n_examples
                         input_reader_config) 0 dataset)
               else mret dataset);
            let num_parallel_calls :=
              if truthy batch_size then
                int_value batch_size
                * input_reader_pb2.num_parallel_batches input_reader_config
              else
                input_reader_pb2.num_parallel_map_calls
                  input_reader_config in
            dataset ←
              library_call lib
                (tf.map
                   (dataset_builder.process_fn decode decoder
                      transform_input_data_fn)
                   num_parallel_calls dataset);
            dataset ←
              (if truthy batch_size then
                 batched ←
                   library_call lib
                     (tf.batch_and_drop_remainder (int_value batch_size)
                        dataset);
                 mret (tf.pack batched)
               else mret (tf.pack dataset));
            dataset ←
              (prefetched ←
                 library_call lib
                   (tf.prefetch
                      (input_reader_pb2.num_prefetch_batches
                         input_reader_config)
                      (projT2 dataset));
               mret (tf.pack prefetched));
            mret dataset
        end
      else lift (raise (ValueError "Unsupported input_reader_config."))
  end.

End builder.

End raising.

(** ** Configurations *)

(** A configuration [build] accepts: the [tf_record_input_reader] member
    of the oneof is set and lists at least one input path. *)
Definition valid_tf_record_config (msg : input_reader_pb2.InputReader) : bool :=
  match input_reader_pb2.input_reader msg with
  | input_reader_pb2.oneof_tf_record_input_reader r =>
      match input_reader_pb2.input_path r with
      | [] => false
      | _ :: _ => true
      end
  | _ => false
  end.

(** The conditions under which [build] is said to reject its argument:
    it is no [InputReader]; the input path list of its
    [tf_record_input_reader] is empty; the oneof is set to another member. *)
Definition rejected (obj : dataset_builder.PyObject) : Prop :=
  match obj with
  | dataset_builder.other_object => True
  | dataset_builder.InputReader_object msg =>
      input_reader_pb2.input_path (input_reader_pb2.tf_record_input_reader msg) = []
      \/ exists name : string,
           input_reader_pb2.WhichOneof msg = Some name
           /\ name <> "tf_record_input_reader"
  end.

(** The decoder [build] constructs from a configuration. *)
Definition decoder_of (msg : input_reader_pb2.InputReader)
    : tf_example_decoder.TfExampleDecoder :=
  {| tf_example_decoder.load_instance_masks :=
       input_reader_pb2.load_instance_masks msg;
     tf_example_decoder.instance_mask_type := input_reader_pb2.mask_type msg;
     tf_example_decoder.label_map_proto_file :=
       input_reader_pb2.label_map_path msg;
     tf_example_decoder.use_display_name :=
       input_reader_pb2.use_display_name msg;
     tf_example_decoder.num_additional_channels :=
       input_reader_pb2.num_additional_channels msg |}.

(** The order of steps read as a ranking of the kinds of call: glob
    expansion (the file names entering the pipeline), sharding, shuffling,
    interleaved reading, map, batching, prefetching.  Calls outside this
    list have no rank. *)
Definition stated_rank (k : tf.Kind) : option nat :=
  match k with
  | tf.from_tensor_slices_kind => Some 0%nat
  | tf.shard_kind => Some 1%nat
  | tf.shuffle_kind => Some 2%nat
  | tf.parallel_interleave_kind => Some 3%nat
  | tf.map_kind => Some 4%nat
  | tf.batch_and_drop_remainder_kind => Some 5%nat
  | tf.prefetch_kind => Some 6%nat
  | tf.repeat_kind | tf.TFRecordDataset_kind => None
  end.

Fixpoint nondecreasing (l : list nat) : bool :=
  match l with
  | x :: (y :: _) as l' => (x <=? y)%nat && nondecreasing l'
  | _ => true
  end.

(** The ranked calls of a pipeline never go back in the stated order. *)
Definition in_stated_order (l : list tf.Step) : bool :=
  nondecreasing (omap (fun s => stated_rank (tf.kind s)) l).

(** *** Concrete inputs *)

Module Examples.

Definition empty_world : World := {| collections := ∅; warnings := [] |}.

(** A file system in which every pattern is the name of one file. *)
Definition Glob (patterns : list string) : list string := patterns.

(** A decoder that leaves the serialized example as it is. *)
Definition decode (_ : tf_example_decoder.TfExampleDecoder) (value : string)
    : string := value.

(** Two record files, shuffling on, every second example kept, the
    number of epochs left at zero. *)
Definition config : input_reader_pb2.InputReader :=
  {| input_reader_pb2.label_map_path := None;
     input_reader_pb2.shuffle := true;
     input_reader_pb2.shuffle_buffer_size := 2048;
     input_reader_pb2.filenames_shuffle_buffer_size := 100;
     input_reader_pb2.num_epochs := 0;
     input_reader_pb2.sample_1_of_n_examples := 2;
     input_reader_pb2.num_readers := 64;
     input_reader_pb2.num_parallel_batches := 8;
     input_reader_pb2.num_prefetch_batches := 2;
     input_reader_pb2.read_block_length := 32;
     input_reader_pb2.num_parallel_map_calls := 64;
     input_reader_pb2.num_additional_channels := 0;
     input_reader_pb2.load_instance_masks := false;
     input_reader_pb2.mask_type := 1;
     input_reader_pb2.use_display_name := false;
     input_reader_pb2.input_reader :=
       input_reader_pb2.oneof_tf_record_input_reader
         {| input_reader_pb2.input_path := ["a.record"; "b.record"] |} |}.

(** The same two files read without shuffling and without sampling. *)
Definition unshuffled_config : input_reader_pb2.InputReader :=
  {| input_reader_pb2.label_map_path := None;
     input_reader_pb2.shuffle := false;
     input_reader_pb2.shuffle_buffer_size := 2048;
     input_reader_pb2.filenames_shuffle_buffer_size := 100;
     input_reader_pb2.num_epochs := 0;
     input_reader_pb2.sample_1_of_n_examples := 1;
     input_reader_pb2.num_readers := 64;
     input_reader_pb2.num_parallel_batches := 8;
     input_reader_pb2.num_prefetch_batches := 2;
     input_reader_pb2.read_block_length := 32;
     input_reader_pb2.num_parallel_map_calls := 64;
     input_reader_pb2.num_additional_channels := 0;
     input_reader_pb2.load_instance_masks := false;
     input_reader_pb2.mask_type := 1;
     input_reader_pb2.use_display_name := false;
     input_reader_pb2.input_reader :=
       input_reader_pb2.oneof_tf_record_input_reader
         {| input_reader_pb2.input_path := ["a.record"; "b.record"] |} |}.

(** Two passes over the two files, in order: no shuffling, no sampling. *)
Definition two_epochs_config : input_reader_pb2.InputReader :=
  {| input_reader_pb2.label_map_path := None;
     input_reader_pb2.shuffle := false;
     input_reader_pb2.shuffle_buffer_size := 2048;
     input_reader_pb2.filenames_shuffle_buffer_size := 100;
     input_reader_pb2.num_epochs := 2;
     input_reader_pb2.sample_1_of_n_examples := 1;
     input_reader_pb2.num_readers := 1;
     input_reader_pb2.num_parallel_batches := 8;
     input_reader_pb2.num_prefetch_batches := 2;
     input_reader_pb2.read_block_length := 32;
     input_reader_pb2.num_parallel_map_calls := 64;
     input_reader_pb2.num_additional_channels := 0;
     input_reader_pb2.load_instance_masks := false;
     input_reader_pb2.mask_type := 1;
     input_reader_pb2.use_display_name := false;
     input_reader_pb2.input_reader :=
       input_reader_pb2.oneof_tf_record_input_reader
         {| input_reader_pb2.input_path := ["a.record"; "b.record"] |} |}.

(** A file system without any file. *)
Definition no_file (patterns : list string) : list string := [].

(** A library that refuses two calls: batching with a negative batch
    size, and an interleaved read whose file names are an empty list.
    Both raise ValueError; every other call is accepted. *)
Definition library : Library :=
  {| dataset_error := fun A d =>
       match d with
       | tf.batch_and_drop_remainder b _ =>
           if b <? 0 then
             Some {| exception_class := "ValueError";
                     exception_message :=
                       "Dimension " +:+ pretty b +:+ " must be >= 0" |}
           else None
       | tf.parallel_interleave _ _ _ _ d' =>
           match tf.source_tensors d' with
           | Some (existT _ []) =>
               Some {| exception_class := "ValueError";
                       exception_message :=
                         "Tensor conversion requested dtype string for Tensor with dtype float32" |}
           | _ => None
           end
       | _ => None
       end;
     decoder_error := fun _ => None |}.

End Examples.


(** * Properties of the library calls *)

Section element_sequences.

Context {A : Type}.
Implicit Types (l : list A) (n k : nat).

(** The first [k] batches put end to end are the first [n * k] elements. *)
Lemma join_first_batches n l k :
  mjoin ((fun j => take n (drop (n * j) l)) <$> seq 0 k) = take (n * k) l.
Proof.
  induction k as [|k IH].
  - rewrite Nat.mul_0_r. reflexivity.
  - rewrite seq_S, fmap_app, join_app, IH.
    replace (n * S k)%nat with (n * k + n)%nat by lia.
    rewrite <- take_take_drop. f_equal. simpl. apply app_nil_r.
Qed.

(** Batching keeps a prefix of the input and loses less than one batch. *)
Lemma batches_join n l :
  mjoin (tf.batches n l) = take (n * (length l / n)) l.
Proof. apply join_first_batches. Qed.

(** Every batch is full. *)
Lemma batches_full n l :
  Forall (fun b => length b = n) (tf.batches n l).
Proof.
  apply Forall_forall. intros b Hb.
  apply list_elem_of_fmap in Hb as (j & -> & Hj).
  apply elem_of_seq in Hj as [_ Hj]. rewrite Nat.add_0_l in Hj.
  destruct n as [|n]; [reflexivity|].
  rewrite length_take, length_drop.
  assert (S n * S j <= length l)%nat.
  { transitivity (S n * (length l / S n))%nat.
    - apply Nat.mul_le_mono_l. lia.
    - apply Nat.Div0.mul_div_le. }
  lia.
Qed.

Lemma batch_elements_full (batch_size : Z) (s : tf.Seq A) :
  tf.every_element (fun b => len b = batch_size) (tf.batch_elements batch_size s).
Proof.
  unfold tf.batch_elements.
  destruct (Z.ltb_spec 0 batch_size) as [Hpos|Hneg]; [|constructor].
  destruct s as [l|f]; cbn [tf.every_element].
  - eapply Forall_impl; [apply batches_full|].
    intros b Hb. unfold len. rewrite Hb. lia.
  - intros i. unfold len. rewrite length_fmap, length_seq. lia.
Qed.

(** One pass over the input is the input. *)
Lemma repeat_elements_once (s : tf.Seq A) :
  tf.repeat_elements (Some 1) s = s.
Proof.
  destruct s as [l|f]; [|reflexivity].
  cbn. f_equal. apply app_nil_r.
Qed.

End element_sequences.

(** * Properties of the builder *)

Section properties.

Context {Tensors : Type}.
Variable Glob : list string -> list string.
Variable decode : tf_example_decoder.TfExampleDecoder -> string -> Tensors.

(** Runs a builder function: the monad's operations are unfolded and the
    tests of the function decided case by case. *)
Ltac run_builder :=
  cbv [dataset_builder.read_dataset dataset_builder.build
       dataset_builder.make_initializable_iterator
       mbind M_bind mret M_ret raise when logging_warning add_to_collection];
  cbn [fst snd collections warnings].

(** ** What [read_dataset] returns *)

(** [read_dataset] never raises: it returns the pipeline below and only
    adds warnings to the log. *)
Lemma read_dataset_returns {B : Type} (file_read_func : string -> tf.Dataset B)
    (input_files : list string) (config : input_reader_pb2.InputReader)
    (w : World) :
  exists ws : list string,
    dataset_builder.read_dataset Glob file_read_func input_files config w =
    (inr (let n := len (Glob input_files) in
          let cycle_length :=
            if input_reader_pb2.num_readers config >? n then n
            else input_reader_pb2.num_readers config in
          let filename_dataset := tf.from_tensor_slices (Glob input_files) in
          let filename_dataset :=
            if input_reader_pb2.shuffle config then
              tf.shuffle (input_reader_pb2.filenames_shuffle_buffer_size config)
                filename_dataset
            else filename_dataset in
          let records_dataset :=
            tf.parallel_interleave file_read_func cycle_length
              (input_reader_pb2.read_block_length config)
              (input_reader_pb2.shuffle config)
              (tf.repeat (or_None (input_reader_pb2.num_epochs config))
                 filename_dataset) in
          if input_reader_pb2.shuffle config then
            tf.shuffle (input_reader_pb2.shuffle_buffer_size config)
              records_dataset
          else records_dataset),
     {| collections := collections w; warnings := warnings w ++ ws |}).
Proof.
  destruct w as [cs log]. run_builder.
  destruct (input_reader_pb2.num_readers config >? len (Glob input_files));
    destruct (input_reader_pb2.shuffle config); cbn [collections warnings].
  - eexists [_]. reflexivity.
  - destruct (len (Glob input_files) >? 1); cbn [collections warnings].
    + eexists [_; _]. rewrite <- app_assoc. reflexivity.
    + eexists [_]. reflexivity.
  - exists []. rewrite app_nil_r. reflexivity.
  - destruct (input_reader_pb2.num_readers config >? 1);
      cbn [collections warnings].
    + eexists [_]. reflexivity.
    + exists []. rewrite app_nil_r. reflexivity.
Qed.

(** ** What [build] returns *)

Lemma valid_tf_record_config_inv (msg : input_reader_pb2.InputReader) :
  valid_tf_record_config msg = true ->
  exists (p : string) (ps : list string),
    input_reader_pb2.input_reader msg =
    input_reader_pb2.oneof_tf_record_input_reader
      {| input_reader_pb2.input_path := p :: ps |}.
Proof.
  unfold valid_tf_record_config.
  destruct (input_reader_pb2.input_reader msg) as [|[[|p ps]]|];
    try discriminate.
  intros _. exists p, ps. reflexivity.
Qed.

(** On a valid configuration [build] returns the records pipeline of
    [read_dataset] followed by the optional [shard], the [map], the
    optional batching and the [prefetch]; the world is the one
    [read_dataset] leaves. *)
Lemma build_returns (msg : input_reader_pb2.InputReader)
    (batch_size : option Z)
    (transform_input_data_fn : option (Tensors -> Tensors)) (w : World) :
  valid_tf_record_config msg = true ->
  exists (records : tf.Dataset string) (w' : World),
    dataset_builder.read_dataset Glob
      (fun filenames => tf.TFRecordDataset filenames 8000000)
      (input_reader_pb2.input_path
         (input_reader_pb2.tf_record_input_reader msg)) msg w
    = (inr records, w')
    /\ dataset_builder.build Glob decode
         (dataset_builder.InputReader_object msg) batch_size
         transform_input_data_fn w
       = (inr (let sampled :=
                 if input_reader_pb2.sample_1_of_n_examples msg >? 1 then
                   tf.shard (input_reader_pb2.sample_1_of_n_examples msg) 0
                     records
                 else records in
               let decoded :=
                 tf.map
                   (dataset_builder.process_fn decode (decoder_of msg)
                      transform_input_data_fn)
                   (if truthy batch_size then
                      int_value batch_size
                      * input_reader_pb2.num_parallel_batches msg
                    else input_reader_pb2.num_parallel_map_calls msg)
                   sampled in
               if truthy batch_size then
                 tf.pack (tf.prefetch
                            (input_reader_pb2.num_prefetch_batches msg)
                            (tf.batch_and_drop_remainder
                               (int_value batch_size) decoded))
               else
                 tf.pack (tf.prefetch
                            (input_reader_pb2.num_prefetch_batches msg)
                            decoded)),
          w').
Proof.
  intros Hvalid.
  destruct (valid_tf_record_config_inv msg Hvalid) as (p & ps & Hreader).
  destruct (read_dataset_returns
              (fun filenames => tf.TFRecordDataset filenames 8000000)
              (p :: ps) msg w) as [ws Hread].
  eexists _, _.
  unfold input_reader_pb2.tf_record_input_reader. rewrite Hreader.
  cbn [input_reader_pb2.input_path]. split; [exact Hread|].
  unfold dataset_builder.build, input_reader_pb2.WhichOneof,
    input_reader_pb2.tf_record_input_reader.
  rewrite Hreader. cbn [input_reader_pb2.input_path].
  rewrite decide_True by reflexivity.
  unfold mbind, M_bind. change (8 * 1000 * 1000) with 8000000.
  rewrite Hread. unfold mret, M_ret.
  replace (match input_reader_pb2.label_map_path msg with
           | Some path => Some path
           | None => None
           end) with (input_reader_pb2.label_map_path msg)
    by (destruct (input_reader_pb2.label_map_path msg); reflexivity).
  fold (decoder_of msg).
  destruct (truthy batch_size); reflexivity.
Qed.

(** ** [read_dataset] *)

(** C3: the cycle length of the parallel interleave built by
    [read_dataset] is [config.num_readers] clamped to the number of files
    matched by the glob expansion: that number when [num_readers] exceeds
    it, [num_readers] unchanged otherwise. *)
Theorem C3_cycle_length_is_num_readers_clamped {B : Type}
    (file_read_func : string -> tf.Dataset B) (input_files : list string)
    (config : input_reader_pb2.InputReader) (w : World) :
  exists (d : tf.Dataset B) (w' : World) (cycle_length : Z),
    dataset_builder.read_dataset Glob file_read_func input_files config w
    = (inr d, w')
    /\ tf.of_kind tf.parallel_interleave_kind (tf.steps d)
       = [tf.parallel_interleave_step cycle_length
            (input_reader_pb2.read_block_length config)
            (input_reader_pb2.shuffle config)]
    /\ cycle_length
       = (if input_reader_pb2.num_readers config >? len (Glob input_files)
          then len (Glob input_files)
          else input_reader_pb2.num_readers config)
    /\ cycle_length
       = Z.min (input_reader_pb2.num_readers config) (len (Glob input_files)).
Proof.
  destruct (read_dataset_returns file_read_func input_files config w)
    as [ws Hread].
  eexists _, _, _. split; [exact Hread|]. split; [|split; [reflexivity|]].
  - destruct (input_reader_pb2.shuffle config); reflexivity.
  - destruct (Z.gtb_spec (input_reader_pb2.num_readers config)
                (len (Glob input_files))); lia.
Qed.

(** C7: one flag controls shuffling in [read_dataset].  When
    [config.shuffle] is true the file names are shuffled with buffer
    [filenames_shuffle_buffer_size] before they are repeated and read, and
    the records are shuffled with buffer [shuffle_buffer_size] after the
    interleaved read; when it is false the pipeline has no shuffle step.
    So a shuffle step is present if and only if the flag is true. *)
Theorem C7_shuffle_controlled_by_flag {B : Type}
    (file_read_func : string -> tf.Dataset B) (input_files : list string)
    (config : input_reader_pb2.InputReader) (w : World) :
  exists (d : tf.Dataset B) (w' : World) (cycle_length : Z),
    dataset_builder.read_dataset Glob file_read_func input_files config w
    = (inr d, w')
    /\ tf.steps d
       = (if input_reader_pb2.shuffle config then
            [tf.from_tensor_slices_step;
             tf.shuffle_step
               (input_reader_pb2.filenames_shuffle_buffer_size config);
             tf.repeat_step (or_None (input_reader_pb2.num_epochs config));
             tf.parallel_interleave_step cycle_length
               (input_reader_pb2.read_block_length config) true;
             tf.shuffle_step (input_reader_pb2.shuffle_buffer_size config)]
          else
            [tf.from_tensor_slices_step;
             tf.repeat_step (or_None (input_reader_pb2.num_epochs config));
             tf.parallel_interleave_step cycle_length
               (input_reader_pb2.read_block_length config) false])
    /\ ((exists s : tf.Step, s ∈ tf.steps d /\ tf.kind s = tf.shuffle_kind)
        <-> input_reader_pb2.shuffle config = true).
Proof.
  destruct (read_dataset_returns file_read_func input_files config w)
    as [ws Hread].
  eexists _, _, _. split; [exact Hread|].
  destruct (input_reader_pb2.shuffle config); cbn [tf.steps app].
  - split; [reflexivity|]. split; [reflexivity|]. intros _.
    eexists. split; [apply list_elem_of_further, list_elem_of_here|].
    reflexivity.
  - split; [reflexivity|]. split; [|discriminate].
    intros (s & Hin & Hkind).
    rewrite !elem_of_cons, elem_of_nil in Hin.
    destruct Hin as [->|[->|[->|[]]]]; discriminate Hkind.
Qed.

(** C5 (as the code has it): [read_dataset] always applies the repeat
    step to the file names, with count [num_epochs or None].  The file
    names are iterated over once, without being repeated, exactly when
    [num_epochs] is 1; a positive [num_epochs] gives that many passes; a
    [num_epochs] of zero repeats the file names without end. *)
Theorem C5_repeat_always_applied {B : Type}
    (file_read_func : string -> tf.Dataset B) (input_files : list string)
    (config : input_reader_pb2.InputReader) (w : World) :
  exists (d : tf.Dataset B) (w' : World) (unrepeated : tf.Dataset string),
    dataset_builder.read_dataset Glob file_read_func input_files config w
    = (inr d, w')
    /\ tf.source_tensors unrepeated = Some (tf.pack_list (Glob input_files))
    /\ tf.interleave_input d
       = Some (tf.pack
                 (tf.repeat (or_None (input_reader_pb2.num_epochs config))
                    unrepeated))
    /\ tf.of_kind tf.repeat_kind (tf.steps d)
       = [tf.repeat_step (or_None (input_reader_pb2.num_epochs config))]
    /\ forall rt : tf.Runtime,
         let repeated :=
           tf.elements rt
             (tf.repeat (or_None (input_reader_pb2.num_epochs config))
                unrepeated) in
         (input_reader_pb2.num_epochs config = 1 ->
          repeated = tf.elements rt unrepeated)
         /\ (forall l : list string,
               0 < input_reader_pb2.num_epochs config ->
               tf.elements rt unrepeated = tf.Fin l ->
               repeated
               = tf.Fin (mjoin (replicate
                                  (Z.to_nat (input_reader_pb2.num_epochs config))
                                  l)))
         /\ (forall (x : string) (l : list string),
               input_reader_pb2.num_epochs config = 0 ->
               tf.elements rt unrepeated = tf.Fin (x :: l) ->
               repeated
               = tf.Inf (fun i => nth (i mod length (x :: l))%nat (x :: l) x)).
Proof.
  destruct (read_dataset_returns file_read_func input_files config w)
    as [ws Hread].
  eexists _, _,
    (if input_reader_pb2.shuffle config then
       tf.shuffle (input_reader_pb2.filenames_shuffle_buffer_size config)
         (tf.from_tensor_slices (Glob input_files))
     else tf.from_tensor_slices (Glob input_files)).
  split; [exact Hread|].
  split; [|split; [|split]].
  - destruct (input_reader_pb2.shuffle config); reflexivity.
  - destruct (input_reader_pb2.shuffle config); reflexivity.
  - destruct (input_reader_pb2.shuffle config); reflexivity.
  - intros rt. cbn [tf.elements].
    set (s := tf.elements rt _). clearbody s.
    repeat split.
    + intros ->. apply repeat_elements_once.
    + intros l Hpos ->.
      destruct (input_reader_pb2.num_epochs config) as [|p|p];
        try lia. reflexivity.
    + intros x l -> ->. reflexivity.
Qed.

(** ** [build] *)

(** C6 (as the code has it): on every valid configuration, with or
    without a batch size, the last step of the pipeline [build] returns
    is a prefetch with buffer size
    [input_reader_config.num_prefetch_batches].  With a batch size it is
    applied to the batched examples, so what it buffers are batches of
    [batch_size] elements; without one it is applied to the mapped
    records, so what it buffers are single decoded examples, one for
    every record that reaches the map. *)
Theorem C6_prefetch_buffers_batches_or_examples
    (msg : input_reader_pb2.InputReader) (batch_size : option Z)
    (transform_input_data_fn : option (Tensors -> Tensors)) (w : World) :
  valid_tf_record_config msg = true ->
  exists (records : tf.Dataset string) (w' : World),
    let fn :=
      dataset_builder.process_fn decode (decoder_of msg)
        transform_input_data_fn in
    let sampled :=
      if input_reader_pb2.sample_1_of_n_examples msg >? 1 then
        tf.shard (input_reader_pb2.sample_1_of_n_examples msg) 0 records
      else records in
    let decoded :=
      tf.map fn
        (if truthy batch_size then
           int_value batch_size * input_reader_pb2.num_parallel_batches msg
         else input_reader_pb2.num_parallel_map_calls msg)
        sampled in
    let batched :=
      tf.batch_and_drop_remainder (int_value batch_size) decoded in
    dataset_builder.read_dataset Glob
      (fun filenames => tf.TFRecordDataset filenames 8000000)
      (input_reader_pb2.input_path
         (input_reader_pb2.tf_record_input_reader msg)) msg w
    = (inr records, w')
    /\ dataset_builder.build Glob decode
         (dataset_builder.InputReader_object msg) batch_size
         transform_input_data_fn w
       = (inr (if truthy batch_size then
                 tf.pack (tf.prefetch
                            (input_reader_pb2.num_prefetch_batches msg)
                            batched)
               else
                 tf.pack (tf.prefetch
                            (input_reader_pb2.num_prefetch_batches msg)
                            decoded)),
          w')
    /\ forall rt : tf.Runtime,
         if truthy batch_size then
           tf.elements rt
             (tf.prefetch (input_reader_pb2.num_prefetch_batches msg) batched)
           = tf.batch_elements (int_value batch_size) (tf.elements rt decoded)
           /\ tf.every_element (fun b => len b = int_value batch_size)
                (tf.elements rt
                   (tf.prefetch (input_reader_pb2.num_prefetch_batches msg)
                      batched))
         else
           tf.elements rt
             (tf.prefetch (input_reader_pb2.num_prefetch_batches msg) decoded)
           = tf.map_elements fn (tf.elements rt sampled).
Proof.
  intros Hvalid.
  destruct (build_returns msg batch_size transform_input_data_fn w Hvalid)
    as (records & w' & Hread & Hbuild).
  exists records, w'. cbv zeta. split; [exact Hread|].
  split; [exact Hbuild|].
  intros rt. destruct (truthy batch_size).
  - cbn [tf.elements]. split; [reflexivity|]. apply batch_elements_full.
  - reflexivity.
Qed.

(** C9: on every valid configuration the map step of [build] runs with
    [batch_size * num_parallel_batches] parallel calls when a batch size
    is given and true, and with [num_parallel_map_calls] otherwise. *)
Theorem C9_map_parallelism (msg : input_reader_pb2.InputReader)
    (batch_size : option Z)
    (transform_input_data_fn : option (Tensors -> Tensors)) (w : World) :
  valid_tf_record_config msg = true ->
  exists (d : tf.AnyDataset) (w' : World),
    dataset_builder.build Glob decode
      (dataset_builder.InputReader_object msg) batch_size
      transform_input_data_fn w
    = (inr d, w')
    /\ tf.of_kind tf.map_kind (tf.steps (projT2 d))
       = [tf.map_step
            (if truthy batch_size then
               int_value batch_size * input_reader_pb2.num_parallel_batches msg
             else input_reader_pb2.num_parallel_map_calls msg)].
Proof.
  intros Hvalid.
  destruct (build_returns msg batch_size transform_input_data_fn w Hvalid)
    as (records & w' & Hread & Hbuild).
  destruct (read_dataset_returns
              (fun filenames => tf.TFRecordDataset filenames 8000000)
              (input_reader_pb2.input_path
                 (input_reader_pb2.tf_record_input_reader msg)) msg w)
    as [ws Hread'].
  rewrite Hread' in Hread. injection Hread as Hrecords _.
  cbv zeta in Hbuild, Hrecords. subst records.
  eexists _, _. split; [exact Hbuild|].
  destruct (truthy batch_size);
    destruct (input_reader_pb2.shuffle msg);
    destruct (input_reader_pb2.sample_1_of_n_examples msg >? 1);
    reflexivity.
Qed.


(** C4: batching in [build] is optional and of fixed size.  When
    [batch_size] is given and true, the pipeline batches the decoded
    examples right before the prefetch, every batch it yields has exactly
    [batch_size] elements, and the batches are a prefix of the decoded
    examples that leaves out less than one batch: the partial remainder.
    When [batch_size] is [None] (or zero) the pipeline has no batching
    step. *)
Theorem C4_batching_optional_and_fixed_size
    (msg : input_reader_pb2.InputReader) (batch_size : option Z)
    (transform_input_data_fn : option (Tensors -> Tensors)) (w : World) :
  valid_tf_record_config msg = true ->
  exists (d : tf.AnyDataset) (w' : World),
    dataset_builder.build Glob decode
      (dataset_builder.InputReader_object msg) batch_size
      transform_input_data_fn w
    = (inr d, w')
    /\ if truthy batch_size then
         exists decoded : tf.Dataset Tensors,
           let batched :=
             tf.prefetch (input_reader_pb2.num_prefetch_batches msg)
               (tf.batch_and_drop_remainder (int_value batch_size) decoded) in
           d = tf.pack batched
           /\ tf.of_kind tf.batch_and_drop_remainder_kind (tf.steps batched)
              = [tf.batch_and_drop_remainder_step (int_value batch_size)]
           /\ forall rt : tf.Runtime,
                tf.every_element (fun b => len b = int_value batch_size)
                  (tf.elements rt batched)
                /\ forall l : list Tensors,
                     tf.elements rt decoded = tf.Fin l ->
                     0 < int_value batch_size ->
                     exists bl : list (list Tensors),
                       tf.elements rt batched = tf.Fin bl
                       /\ mjoin bl
                          = take (Z.to_nat (int_value batch_size)
                                  * (length l / Z.to_nat (int_value batch_size)))
                              l
                       /\ (length l - length (mjoin bl)
                           < Z.to_nat (int_value batch_size))%nat
       else
         tf.of_kind tf.batch_and_drop_remainder_kind (tf.steps (projT2 d)) = [].
Proof.
  intros Hvalid.
  destruct (build_returns msg batch_size transform_input_data_fn w Hvalid)
    as (records & w' & Hread & Hbuild).
  destruct (read_dataset_returns
              (fun filenames => tf.TFRecordDataset filenames 8000000)
              (input_reader_pb2.input_path
                 (input_reader_pb2.tf_record_input_reader msg)) msg w)
    as [ws Hread'].
  rewrite Hread' in Hread. injection Hread as Hrecords _.
  cbv zeta in Hbuild, Hrecords.
  eexists _, _. split; [exact Hbuild|].
  destruct (truthy batch_size).
  - eexists. cbv zeta. split; [reflexivity|]. split.
    + subst records.
      destruct (input_reader_pb2.shuffle msg);
        destruct (input_reader_pb2.sample_1_of_n_examples msg >? 1);
        reflexivity.
    + intros rt. cbn [tf.elements]. split; [apply batch_elements_full|].
      intros l Hl Hpos. cbn [tf.elements] in Hl. rewrite Hl.
      unfold tf.batch_elements.
      destruct (Z.ltb_spec 0 (int_value batch_size)) as [_|]; [|lia].
      eexists. split; [reflexivity|].
      rewrite batches_join. split; [reflexivity|].
      rewrite length_take.
      set (n := Z.to_nat (int_value batch_size)).
      assert (0 < n)%nat by lia.
      pose proof (Nat.div_mod_eq (length l) n).
      pose proof (Nat.mod_upper_bound (length l) n). lia.
  - subst records. cbn [projT2 tf.pack].
    destruct (input_reader_pb2.shuffle msg);
      destruct (input_reader_pb2.sample_1_of_n_examples msg >? 1);
      reflexivity.
Qed.

(** C1 (as the code has it): on every valid configuration the pipeline
    [build] returns starts from the glob expansion of the input paths and
    applies its steps in this order: shuffling of the file names (if
    [shuffle]), repeat, parallel interleaved reading, shuffling of the
    records (if [shuffle]), sharding (if [sample_1_of_n_examples > 1]),
    the decode/transform map, batching (if [batch_size] is true),
    prefetching. *)
Theorem C1_pipeline_order (msg : input_reader_pb2.InputReader)
    (batch_size : option Z)
    (transform_input_data_fn : option (Tensors -> Tensors)) (w : World) :
  valid_tf_record_config msg = true ->
  exists (d : tf.AnyDataset) (w' : World),
    dataset_builder.build Glob decode
      (dataset_builder.InputReader_object msg) batch_size
      transform_input_data_fn w
    = (inr d, w')
    /\ tf.source_tensors (projT2 d)
       = Some (tf.pack_list
                 (Glob (input_reader_pb2.input_path
                          (input_reader_pb2.tf_record_input_reader msg))))
    /\ tf.kind <$> tf.steps (projT2 d)
       = [tf.from_tensor_slices_kind]
         ++ (if input_reader_pb2.shuffle msg then [tf.shuffle_kind] else [])
         ++ [tf.repeat_kind; tf.parallel_interleave_kind]
         ++ (if input_reader_pb2.shuffle msg then [tf.shuffle_kind] else [])
         ++ (if input_reader_pb2.sample_1_of_n_examples msg >? 1
             then [tf.shard_kind] else [])
         ++ [tf.map_kind]
         ++ (if truthy batch_size
             then [tf.batch_and_drop_remainder_kind] else [])
         ++ [tf.prefetch_kind].
Proof.
  intros Hvalid.
  destruct (build_returns msg batch_size transform_input_data_fn w Hvalid)
    as (records & w' & Hread & Hbuild).
  destruct (read_dataset_returns
              (fun filenames => tf.TFRecordDataset filenames 8000000)
              (input_reader_pb2.input_path
                 (input_reader_pb2.tf_record_input_reader msg)) msg w)
    as [ws Hread'].
  rewrite Hread' in Hread. injection Hread as Hrecords _.
  cbv zeta in Hbuild, Hrecords. subst records.
  eexists _, _. split; [exact Hbuild|].
  destruct (truthy batch_size);
    destruct (input_reader_pb2.shuffle msg);
    destruct (input_reader_pb2.sample_1_of_n_examples msg >? 1);
    split; reflexivity.
Qed.

(** ** [make_initializable_iterator] *)

(** C10: [make_initializable_iterator] returns the initializable iterator
    made from the dataset it is given, which it leaves as it was; its only
    effect is to append the initializer of that iterator to the
    TABLE_INITIALIZERS collection of the graph: every other collection
    and the log are unchanged. *)
Theorem C10_make_initializable_iterator_effect (dataset : tf.AnyDataset)
    (w : World) :
  exists (iterator : tf.Iterator) (w' : World),
    dataset_builder.make_initializable_iterator dataset w = (inr iterator, w')
    /\ iterator = tf.Dataset_make_initializable_iterator dataset
    /\ tf.iterator_dataset iterator = dataset
    /\ collections w' !! tf.GraphKeys.TABLE_INITIALIZERS
       = Some (default [] (collections w !! tf.GraphKeys.TABLE_INITIALIZERS)
               ++ [tf.initializer iterator])
    /\ (forall name : string,
          name <> tf.GraphKeys.TABLE_INITIALIZERS ->
          collections w' !! name = collections w !! name)
    /\ warnings w' = warnings w.
Proof.
  run_builder. eexists _, _. split; [reflexivity|].
  cbn [collections warnings]. repeat split.
  - apply lookup_insert_eq.
  - intros name Hname. apply lookup_insert_ne. congruence.
Qed.

End properties.

(** * The properties on concrete inputs *)

(** C1 (as stated) fails: with shuffling on and one example in two
    sampled, the shard step comes after both shuffle steps and after the
    interleaved read, and the records are shuffled after they are read;
    the steps are not in the order glob, shard, shuffle, interleaved
    read, map, batch, prefetch. *)
Lemma C1_shard_follows_shuffle_and_read :
  valid_tf_record_config Examples.config = true
  /\ exists (d : tf.AnyDataset) (w' : World),
       dataset_builder.build Examples.Glob Examples.decode
         (dataset_builder.InputReader_object Examples.config) (Some 4) None
         Examples.empty_world
       = (inr d, w')
       /\ tf.steps (projT2 d)
          = [tf.from_tensor_slices_step; tf.shuffle_step 100;
             tf.repeat_step None; tf.parallel_interleave_step 2 32 true;
             tf.shuffle_step 2048; tf.shard_step 2 0; tf.map_step 32;
             tf.batch_and_drop_remainder_step 4; tf.prefetch_step 2]
       /\ in_stated_order (tf.steps (projT2 d)) = false.
Proof.
  split; [reflexivity|].
  eexists _, _. split; [vm_compute; reflexivity|].
  split; reflexivity.
Qed.

(** C5 (as stated) fails: a configuration that asks for no number of
    epochs ([num_epochs] is zero) still gets the repeat step, with count
    [None], and its file names are repeated without end: the first five
    file names yielded go through the two files more than twice. *)
Lemma C5_zero_epochs_repeats_without_end :
  input_reader_pb2.num_epochs Examples.unshuffled_config = 0
  /\ exists (d : tf.Dataset string) (w' : World),
       dataset_builder.read_dataset Examples.Glob
         (fun filenames => tf.TFRecordDataset filenames 8000000)
         ["a.record"; "b.record"] Examples.unshuffled_config
         Examples.empty_world
       = (inr d, w')
       /\ tf.interleave_input d
          = Some (tf.pack
                    (tf.repeat None
                       (tf.from_tensor_slices ["a.record"; "b.record"])))
       /\ forall rt : tf.Runtime,
            tf.first 5
              (tf.elements rt
                 (tf.repeat None
                    (tf.from_tensor_slices ["a.record"; "b.record"])))
            = ["a.record"; "b.record"; "a.record"; "b.record"; "a.record"].
Proof.
  split; [reflexivity|].
  eexists _, _. split; [vm_compute; reflexivity|].
  split; [reflexivity|]. intros rt. reflexivity.
Qed.

(** The order of C1 on a configuration with every optional step: shuffling
    on, one example in two sampled, a batch size of 4. *)
Lemma C1_pipeline_order_witness :
  valid_tf_record_config Examples.config = true
  /\ exists (d : tf.AnyDataset) (w' : World),
       dataset_builder.build Examples.Glob Examples.decode
         (dataset_builder.InputReader_object Examples.config) (Some 4) None
         Examples.empty_world
       = (inr d, w')
       /\ tf.kind <$> tf.steps (projT2 d)
          = [tf.from_tensor_slices_kind; tf.shuffle_kind; tf.repeat_kind;
             tf.parallel_interleave_kind; tf.shuffle_kind; tf.shard_kind;
             tf.map_kind; tf.batch_and_drop_remainder_kind; tf.prefetch_kind].
Proof.
  split; [reflexivity|].
  destruct (C1_pipeline_order Examples.Glob Examples.decode Examples.config
              (Some 4) None Examples.empty_world eq_refl)
    as (d & w' & Hbuild & _ & Hkinds).
  exists d, w'. split; [exact Hbuild|exact Hkinds].
Defined.

(** C4 on a valid configuration with a batch size of 4. *)
Lemma C4_batching_witness :
  valid_tf_record_config Examples.config = true
  /\ exists (d : tf.AnyDataset) (w' : World),
       dataset_builder.build Examples.Glob Examples.decode
         (dataset_builder.InputReader_object Examples.config) (Some 4) None
         Examples.empty_world
       = (inr d, w')
       /\ tf.of_kind tf.batch_and_drop_remainder_kind (tf.steps (projT2 d))
          = [tf.batch_and_drop_remainder_step 4].
Proof.
  split; [reflexivity|].
  destruct (C4_batching_optional_and_fixed_size Examples.Glob Examples.decode
              Examples.config (Some 4) None Examples.empty_world eq_refl)
    as (d & w' & Hbuild & decoded & -> & Hsteps & _).
  eexists _, w'. split; [exact Hbuild|exact Hsteps].
Defined.

(** C9 on a valid configuration: 4 * 8 parallel calls. *)
Lemma C9_map_parallelism_witness :
  valid_tf_record_config Examples.config = true
  /\ exists (d : tf.AnyDataset) (w' : World),
       dataset_builder.build Examples.Glob Examples.decode
         (dataset_builder.InputReader_object Examples.config) (Some 4) None
         Examples.empty_world
       = (inr d, w')
       /\ tf.of_kind tf.map_kind (tf.steps (projT2 d)) = [tf.map_step 32].
Proof.
  split; [reflexivity|].
  exact (C9_map_parallelism Examples.Glob Examples.decode Examples.config
           (Some 4) None Examples.empty_world eq_refl).
Defined.

(** * Further properties of the library calls *)

Section more_element_sequences.

Context {A : Type}.
Implicit Types (l : list A) (n k j : nat).

(** Gathering the defined values of a function over [0 .. m - 1], when
    the function is defined on an initial segment of the numbers: the
    value at position [j] is the value of the function at [j]. *)
Lemma omap_seq_lookup (f : nat -> option A) (m : nat) :
  (forall j, is_Some (f (S j)) -> is_Some (f j)) ->
  forall j, omap f (seq 0 m) !! j = if decide (j < m)%nat then f j else None.
Proof.
  intros Hdown.
  assert (forall i j, (i <= j)%nat -> is_Some (f j) -> is_Some (f i)) as Hle.
  { intros i j Hij. induction Hij as [|j Hij IH]; [tauto|].
    intros Hj. apply IH, Hdown, Hj. }
  induction m as [|m IH]; intros j.
  - destruct (decide (j < 0)%nat); [lia|]. reflexivity.
  - rewrite seq_S, omap_app. cbn [seq omap list_omap Nat.add].
    assert (length (omap f (seq 0 m)) <= m)%nat as Hlen.
    { apply lookup_ge_None. rewrite IH.
      destruct (decide (m < m)%nat); [lia|reflexivity]. }
    destruct (decide (j < S m)%nat) as [Hj|Hj].
    + destruct (decide (j = m)) as [->|Hne].
      * destruct (f m) as [x|] eqn:Hfm.
        -- assert (length (omap f (seq 0 m)) = m) as Hlen'.
           { apply Nat.le_antisymm; [exact Hlen|].
             destruct m as [|m']; [lia|].
             assert (is_Some (omap f (seq 0 (S m')) !! m')) as Hsome.
             { rewrite IH. destruct (decide (m' < S m')%nat); [|lia].
               apply (Hle m' (S m')); [lia|]. rewrite Hfm. eauto. }
             apply lookup_lt_is_Some in Hsome. lia. }
           rewrite lookup_app_r by lia. rewrite Hlen', Nat.sub_diag.
           reflexivity.
        -- rewrite app_nil_r, IH.
           destruct (decide (m < m)%nat); [lia|reflexivity].
      * specialize (IH j). destruct (decide (j < m)%nat); [|lia].
        destruct (f j) as [y|] eqn:Hfj.
        -- apply lookup_app_l_Some. exact IH.
        -- destruct (f m) as [x|] eqn:Hfm.
           ++ assert (is_Some (f j)) as [y Hy].
              { apply (Hle j m); [lia|]. rewrite Hfm. eauto. }
              congruence.
           ++ rewrite app_nil_r. exact IH.
    + apply lookup_ge_None. rewrite length_app.
      destruct (f m); cbn [length]; lia.
Qed.

(** Sampling a finite input: the [j]-th element kept by
    [shard(num_shards, index)] is the input element at position
    [num_shards * j + index]. *)
Lemma shard_elements_lookup (num_shards index : Z) l :
  0 < num_shards -> 0 <= index < num_shards ->
  exists out : list A,
    tf.shard_elements num_shards index (tf.Fin l) = tf.Fin out
    /\ forall j,
         out !! j = l !! (Z.to_nat num_shards * j + Z.to_nat index)%nat.
Proof.
  intros Hn Hi. unfold tf.shard_elements.
  replace ((0 <? num_shards) && (0 <=? index) && (index <? num_shards))
    with true by (symmetry; rewrite !andb_true_iff; lia).
  eexists. split; [reflexivity|]. intros j.
  rewrite omap_seq_lookup.
  - destruct (decide (j < length l)%nat) as [|Hge]; [reflexivity|].
    symmetry. apply lookup_ge_None. nia.
  - intros i Hsome. apply lookup_lt_is_Some in Hsome.
    apply lookup_lt_is_Some. nia.
Qed.

(** The number of batches is the number of full batches of the input. *)
Lemma length_batches n l : length (tf.batches n l) = (length l / n)%nat.
Proof. unfold tf.batches. rewrite length_fmap, length_seq. reflexivity. Qed.

(** An input shorter than one batch gives no batch. *)
Lemma batches_short n l : (length l < n)%nat -> tf.batches n l = [].
Proof.
  intros Hlt. apply nil_length_inv. rewrite length_batches.
  apply Nat.div_small. exact Hlt.
Qed.

(** An input made of full batches loses nothing. *)
Lemma batches_exact n l :
  (0 < n)%nat -> (length l mod n = 0)%nat -> mjoin (tf.batches n l) = l.
Proof.
  intros Hn Hmod. rewrite batches_join. apply take_ge.
  pose proof (Nat.div_mod_eq (length l) n). lia.
Qed.

(** [k] passes over a list yield [k] times its length. *)
Lemma length_join_replicate k l :
  length (mjoin (replicate k l)) = (k * length l)%nat.
Proof.
  induction k as [|k IH]; [reflexivity|].
  change (mjoin (replicate (S k) l)) with (l ++ mjoin (replicate k l)).
  rewrite length_app, IH. lia.
Qed.

End more_element_sequences.

(** * Further properties of the builder *)

Section more_properties.

Context {Tensors : Type}.
Variable Glob : list string -> list string.
Variable decode : tf_example_decoder.TfExampleDecoder -> string -> Tensors.

(** ** The log and the graph *)

(** [build] raises on every configuration that is not valid. *)
Lemma build_invalid_raises (msg : input_reader_pb2.InputReader)
    (batch_size : option Z)
    (transform_input_data_fn : option (Tensors -> Tensors)) (w : World) :
  valid_tf_record_config msg = false ->
  exists message : string,
    dataset_builder.build Glob decode
      (dataset_builder.InputReader_object msg) batch_size
      transform_input_data_fn w
    = (inl (ValueError message), w).
Proof.
  unfold valid_tf_record_config, dataset_builder.build,
    input_reader_pb2.tf_record_input_reader, input_reader_pb2.WhichOneof.
  destruct (input_reader_pb2.input_reader msg) as [|[[|p ps]]|];
    try discriminate; intros _; cbn [input_reader_pb2.input_path].
  - rewrite decide_False by discriminate. eexists. reflexivity.
  - rewrite decide_True by reflexivity. eexists. reflexivity.
  - rewrite decide_False by discriminate. eexists. reflexivity.
Qed.

(** X6: two calls of [make_initializable_iterator] in a row leave both
    initializers in the TABLE_INITIALIZERS collection, after what was
    there, in the order of the calls; nothing else changes. *)
Theorem X6_make_initializable_iterator_twice (d1 d2 : tf.AnyDataset)
    (w : World) :
  exists (it1 it2 : tf.Iterator) (w' : World),
    (it1 ← dataset_builder.make_initializable_iterator d1;
     it2 ← dataset_builder.make_initializable_iterator d2;
     mret (it1, it2)) w
    = (inr (it1, it2), w')
    /\ tf.iterator_dataset it1 = d1
    /\ tf.iterator_dataset it2 = d2
    /\ collections w' !! tf.GraphKeys.TABLE_INITIALIZERS
       = Some (default [] (collections w !! tf.GraphKeys.TABLE_INITIALIZERS)
               ++ [tf.initializer it1; tf.initializer it2])
    /\ (forall name : string,
          name <> tf.GraphKeys.TABLE_INITIALIZERS ->
          collections w' !! name = collections w !! name)
    /\ warnings w' = warnings w.
Proof.
  cbv [dataset_builder.make_initializable_iterator mbind M_bind mret M_ret
       add_to_collection].
  cbn [collections warnings].
  eexists _, _, _. split; [reflexivity|].
  split; [reflexivity|]. split; [reflexivity|].
  cbn [collections warnings]. split; [|split; [|reflexivity]].
  - rewrite !lookup_insert_eq. f_equal.
    change (default [] (Some ?x)) with x. rewrite <- app_assoc.
    reflexivity.
  - intros name Hname. rewrite !lookup_insert_ne by congruence. reflexivity.
Qed.

(** ** Edge cases of [read_dataset] *)

(** X9: without shuffling, a positive [num_epochs] makes the file name
    dataset yield the matched files, in the order of the glob expansion,
    [num_epochs] times over: [num_epochs] times the number of files in
    all. *)
Theorem X9_read_dataset_epochs_in_order {B : Type}
    (file_read_func : string -> tf.Dataset B) (input_files : list string)
    (config : input_reader_pb2.InputReader) (w : World) :
  input_reader_pb2.shuffle config = false ->
  0 < input_reader_pb2.num_epochs config ->
  exists (d : tf.Dataset B) (w' : World) (filename_dataset : tf.Dataset string),
    dataset_builder.read_dataset Glob file_read_func input_files config w
    = (inr d, w')
    /\ tf.interleave_input d = Some (tf.pack filename_dataset)
    /\ forall rt : tf.Runtime,
         tf.elements rt filename_dataset
         = tf.Fin (mjoin (replicate
                            (Z.to_nat (input_reader_pb2.num_epochs config))
                            (Glob input_files)))
         /\ length (mjoin (replicate
                             (Z.to_nat (input_reader_pb2.num_epochs config))
                             (Glob input_files)))
            = (Z.to_nat (input_reader_pb2.num_epochs config)
               * length (Glob input_files))%nat.
Proof.
  intros Hshuffle Hepochs.
  destruct (read_dataset_returns Glob file_read_func input_files config w)
    as [ws Hread].
  rewrite Hshuffle in Hread. cbv zeta in Hread.
  eexists _, _, _. split; [exact Hread|]. split; [reflexivity|].
  intros rt. split; [|apply length_join_replicate].
  cbn [tf.elements].
  destruct (input_reader_pb2.num_epochs config) as [|p|p]; try lia.
  reflexivity.
Qed.

(** ** Edge cases of [build] *)

(** X5: a batch size of zero is treated as no batch size: [build]
    returns the same result with [batch_size = 0] as with
    [batch_size = None], whatever the other arguments. *)
Theorem X5_build_zero_batch_size
    (input_reader_config : dataset_builder.PyObject)
    (transform_input_data_fn : option (Tensors -> Tensors)) (w : World) :
  dataset_builder.build Glob decode input_reader_config (Some 0)
    transform_input_data_fn w
  = dataset_builder.build Glob decode input_reader_config None
      transform_input_data_fn w.
Proof.
  destruct input_reader_config as [msg|]; [|reflexivity].
  destruct (valid_tf_record_config msg) eqn:Hvalid.
  - destruct (build_returns Glob decode msg (Some 0)
                transform_input_data_fn w Hvalid)
      as (records & w' & Hread & Hzero).
    destruct (build_returns Glob decode msg None
                transform_input_data_fn w Hvalid)
      as (records' & w'' & Hread' & Hnone).
    rewrite Hread in Hread'. injection Hread' as <- <-.
    rewrite Hzero, Hnone. reflexivity.
  - destruct (build_invalid_raises msg (Some 0) transform_input_data_fn w
                Hvalid) as [message Hzero].
    unfold dataset_builder.build in *.
    destruct (decide (input_reader_pb2.WhichOneof msg
                      = Some "tf_record_input_reader")); [|reflexivity].
    destruct (input_reader_pb2.input_path
                (input_reader_pb2.tf_record_input_reader msg));
      [reflexivity|].
    reflexivity.
Qed.

(** X7: sampling.  On a valid configuration with
    [sample_1_of_n_examples = n > 1] and no batching, the [j]-th element
    the pipeline yields is [process_fn] of the record at position
    [n * j] of the records read: one record in [n] is kept, starting with
    the first. *)
Theorem X7_build_keeps_one_record_in_n (msg : input_reader_pb2.InputReader)
    (batch_size : option Z)
    (transform_input_data_fn : option (Tensors -> Tensors)) (w : World) :
  valid_tf_record_config msg = true ->
  1 < input_reader_pb2.sample_1_of_n_examples msg ->
  truthy batch_size = false ->
  exists (records : tf.Dataset string) (sampled : tf.Dataset Tensors)
         (w' : World),
    dataset_builder.read_dataset Glob
      (fun filenames => tf.TFRecordDataset filenames 8000000)
      (input_reader_pb2.input_path
         (input_reader_pb2.tf_record_input_reader msg)) msg w
    = (inr records, w')
    /\ dataset_builder.build Glob decode
         (dataset_builder.InputReader_object msg) batch_size
         transform_input_data_fn w
       = (inr (tf.pack sampled), w')
    /\ forall (rt : tf.Runtime) (l : list string),
         tf.elements rt records = tf.Fin l ->
         exists out : list Tensors,
           tf.elements rt sampled = tf.Fin out
           /\ forall j : nat,
                out !! j
                = dataset_builder.process_fn decode (decoder_of msg)
                    transform_input_data_fn
                  <$> l !! (Z.to_nat
                              (input_reader_pb2.sample_1_of_n_examples msg)
                            * j)%nat.
Proof.
  intros Hvalid Hsample Hbatch.
  destruct (build_returns Glob decode msg batch_size
              transform_input_data_fn w Hvalid)
    as (records & w' & Hread & Hbuild).
  rewrite Hbatch in Hbuild. cbv zeta in Hbuild.
  replace (input_reader_pb2.sample_1_of_n_examples msg >? 1) with true
    in Hbuild by (symmetry; apply Z.gtb_lt; lia).
  eexists _, _, _. split; [exact Hread|]. split; [exact Hbuild|].
  intros rt l Hl. cbn [tf.elements]. rewrite Hl.
  destruct (shard_elements_lookup
              (input_reader_pb2.sample_1_of_n_examples msg) 0 l)
    as (out & Hout & Hlookup); [lia|lia|].
  rewrite Hout. cbn [tf.map_elements].
  eexists. split; [reflexivity|]. intros j.
  rewrite list_lookup_fmap, Hlookup. cbn [Z.to_nat].
  rewrite Nat.add_0_r. reflexivity.
Qed.

(** X8: batching.  On a valid configuration with a positive batch size
    [b], the pipeline yields as many batches as there are full batches
    among the decoded examples: none at all when there are fewer than
    [b] examples, and batches that lose no example when their number is
    a multiple of [b]. *)
Theorem X8_build_number_of_batches (msg : input_reader_pb2.InputReader)
    (b : Z) (transform_input_data_fn : option (Tensors -> Tensors))
    (w : World) :
  valid_tf_record_config msg = true ->
  0 < b ->
  exists (decoded : tf.Dataset Tensors) (w' : World),
    let batched :=
      tf.prefetch (input_reader_pb2.num_prefetch_batches msg)
        (tf.batch_and_drop_remainder b decoded) in
    dataset_builder.build Glob decode
      (dataset_builder.InputReader_object msg) (Some b)
      transform_input_data_fn w
    = (inr (tf.pack batched), w')
    /\ forall (rt : tf.Runtime) (l : list Tensors),
         tf.elements rt decoded = tf.Fin l ->
         exists bl : list (list Tensors),
           tf.elements rt batched = tf.Fin bl
           /\ length bl = (length l / Z.to_nat b)%nat
           /\ (len l < b -> bl = [])
           /\ ((length l mod Z.to_nat b)%nat = 0%nat -> mjoin bl = l).
Proof.
  intros Hvalid Hb.
  destruct (build_returns Glob decode msg (Some b)
              transform_input_data_fn w Hvalid)
    as (records & w' & Hread & Hbuild).
  assert (truthy (Some b) = true) as Htruthy.
  { unfold truthy. destruct (Z.eqb_spec b 0); [lia|reflexivity]. }
  rewrite Htruthy in Hbuild. cbv zeta in Hbuild. cbn [int_value default] in Hbuild.
  eexists _, _. cbv zeta. split; [exact Hbuild|].
  intros rt l Hl. cbn [tf.elements] in Hl |- *. rewrite Hl.
  unfold tf.batch_elements.
  destruct (Z.ltb_spec 0 b) as [_|]; [|lia].
  eexists. split; [reflexivity|].
  split; [apply length_batches|]. split.
  - intros Hshort. apply batches_short. unfold len in Hshort. lia.
  - intros Hexact. apply batches_exact; [lia|exact Hexact].
Qed.

(** X10: on a valid configuration, the steps of the pipeline follow the
    order glob expansion, sharding, shuffling, interleaved reading, map,
    batching, prefetching exactly when shuffling is off and no sampling
    is asked for. *)
Theorem X10_stated_order_without_shuffle_and_sampling
    (msg : input_reader_pb2.InputReader) (batch_size : option Z)
    (transform_input_data_fn : option (Tensors -> Tensors)) (w : World) :
  valid_tf_record_config msg = true ->
  exists (d : tf.AnyDataset) (w' : World),
    dataset_builder.build Glob decode
      (dataset_builder.InputReader_object msg) batch_size
      transform_input_data_fn w
    = (inr d, w')
    /\ in_stated_order (tf.steps (projT2 d))
       = negb (input_reader_pb2.shuffle msg)
         && negb (input_reader_pb2.sample_1_of_n_examples msg >? 1).
Proof.
  intros Hvalid.
  destruct (build_returns Glob decode msg batch_size
              transform_input_data_fn w Hvalid)
    as (records & w' & Hread & Hbuild).
  destruct (read_dataset_returns Glob
              (fun filenames => tf.TFRecordDataset filenames 8000000)
              (input_reader_pb2.input_path
                 (input_reader_pb2.tf_record_input_reader msg)) msg w)
    as [ws Hread'].
  rewrite Hread' in Hread. injection Hread as Hrecords _.
  cbv zeta in Hbuild, Hrecords. subst records.
  eexists _, _. split; [exact Hbuild|].
  destruct (truthy batch_size);
    destruct (input_reader_pb2.shuffle msg);
    destruct (input_reader_pb2.sample_1_of_n_examples msg >? 1);
    reflexivity.
Qed.

End more_properties.

(** * The further properties on concrete inputs *)

(** X9 on two files and two epochs: four file names, in order. *)
Lemma X9_read_dataset_epochs_witness :
  input_reader_pb2.shuffle Examples.two_epochs_config = false
  /\ 0 < input_reader_pb2.num_epochs Examples.two_epochs_config
  /\ exists (d : tf.Dataset string) (w' : World)
            (filename_dataset : tf.Dataset string),
       dataset_builder.read_dataset Examples.Glob
         (fun filenames => tf.TFRecordDataset filenames 8000000)
         ["a.record"; "b.record"] Examples.two_epochs_config
         Examples.empty_world
       = (inr d, w')
       /\ tf.interleave_input d = Some (tf.pack filename_dataset)
       /\ forall rt : tf.Runtime,
            tf.elements rt filename_dataset
            = tf.Fin ["a.record"; "b.record"; "a.record"; "b.record"].
Proof.
  split; [reflexivity|]. split; [reflexivity|].
  destruct (X9_read_dataset_epochs_in_order Examples.Glob
              (fun filenames => tf.TFRecordDataset filenames 8000000)
              ["a.record"; "b.record"] Examples.two_epochs_config
              Examples.empty_world eq_refl eq_refl)
    as (d & w' & fd & Hread & Hinput & Helements).
  exists d, w', fd. split; [exact Hread|]. split; [exact Hinput|].
  intros rt. exact (proj1 (Helements rt)).
Defined.

(** X7 on a configuration that keeps one example in two. *)
Lemma X7_build_sampling_witness :
  valid_tf_record_config Examples.config = true
  /\ 1 < input_reader_pb2.sample_1_of_n_examples Examples.config
  /\ truthy None = false
  /\ exists (sampled : tf.Dataset string) (w' : World),
       dataset_builder.build Examples.Glob Examples.decode
         (dataset_builder.InputReader_object Examples.config) None None
         Examples.empty_world
       = (inr (tf.pack sampled), w').
Proof.
  split; [reflexivity|]. split; [reflexivity|]. split; [reflexivity|].
  destruct (X7_build_keeps_one_record_in_n Examples.Glob Examples.decode
              Examples.config None None Examples.empty_world
              eq_refl eq_refl eq_refl)
    as (records & sampled & w' & _ & Hbuild & _).
  exists sampled, w'. exact Hbuild.
Defined.

(** X8 on a valid configuration with batches of 4. *)
Lemma X8_build_batches_witness :
  valid_tf_record_config Examples.config = true
  /\ 0 < 4
  /\ exists (decoded : tf.Dataset string) (w' : World),
       dataset_builder.build Examples.Glob Examples.decode
         (dataset_builder.InputReader_object Examples.config) (Some 4) None
         Examples.empty_world
       = (inr (tf.pack (tf.prefetch 2
                          (tf.batch_and_drop_remainder 4 decoded))),
          w').
Proof.
  split; [reflexivity|]. split; [reflexivity|].
  destruct (X8_build_number_of_batches Examples.Glob Examples.decode
              Examples.config 4 None Examples.empty_world eq_refl eq_refl)
    as (decoded & w' & Hbuild & _).
  exists decoded, w'. exact Hbuild.
Defined.

(** X10 on a configuration without shuffling and sampling: the steps are
    in the stated order. *)
Lemma X10_stated_order_witness :
  valid_tf_record_config Examples.unshuffled_config = true
  /\ exists (d : tf.AnyDataset) (w' : World),
       dataset_builder.build Examples.Glob Examples.decode
         (dataset_builder.InputReader_object Examples.unshuffled_config)
         (Some 4) None Examples.empty_world
       = (inr d, w')
       /\ in_stated_order (tf.steps (projT2 d)) = true.
Proof.
  split; [reflexivity|].
  exact (X10_stated_order_without_shuffle_and_sampling Examples.Glob
           Examples.decode Examples.unshuffled_config (Some 4) None
           Examples.empty_world eq_refl).
Defined.

(** * The builder with the exceptions of the library calls *)

Section raising_properties.

Context {Tensors : Type}.
Variable lib : Library.
Variable Glob : list string -> list string.
Variable decode : tf_example_decoder.TfExampleDecoder -> string -> Tensors.

(** Decides the answers of the library to the calls in the goal, one
    after the other. *)
Ltac ask_library :=
  repeat (cbn [projT1 projT2];
          match goal with
          | |- context [dataset_error ?l ?A ?d] =>
              let H := fresh "Hcall" in
              destruct (dataset_error l A d) eqn:H
          end).

Ltac run_raising :=
  cbv [raising.read_dataset dataset_builder.read_dataset library_call lift
       mbind M_bind R_bind mret M_ret R_ret raise when logging_warning];
  cbn [fst snd collections warnings andb].

(** [read_dataset] with the exceptions of the library: it makes the calls
    of the pipeline [dataset_builder.read_dataset] describes and returns
    that pipeline when the library accepts all of them; otherwise it
    raises the exception of the first call refused, with the collections
    as they were and the log only extended. *)
Lemma raising_read_dataset_run {B : Type}
    (file_read_func : string -> tf.Dataset B) (input_files : list string)
    (config : input_reader_pb2.InputReader) (w : World) :
  exists (d : tf.Dataset B) (w' : World),
    dataset_builder.read_dataset Glob file_read_func input_files config w
    = (inr d, w')
    /\ if accepted lib d then
         raising.read_dataset lib Glob file_read_func input_files config w
         = (inr d, w')
       else
         exists (e : PyException) (w'' : World),
           raising.read_dataset lib Glob file_read_func input_files config w
           = (inl (raised_by_library e), w'')
           /\ (exists (A : Type) (call : tf.Dataset A),
                 dataset_error lib A call = Some e)
           /\ collections w'' = collections w
           /\ exists ws : list string, warnings w'' = warnings w ++ ws.
Proof.
  destruct w as [cs log]. run_raising.
  destruct (input_reader_pb2.num_readers config >? len (Glob input_files));
    destruct (input_reader_pb2.shuffle config);
    cbn [fst snd collections warnings andb];
    try destruct (_ >? 1);
    cbn [fst snd collections warnings andb];
    eexists _, _; (split; [reflexivity|]);
    cbn [accepted]; unfold accepts;
    ask_library; cbn [andb];
    first [ congruence
          | reflexivity
          | eexists _, _; split; [reflexivity|];
            split; [eexists _, _; eassumption|]; split; [reflexivity|];
            cbn [warnings];
            first [ eexists; reflexivity
                  | eexists; rewrite <- app_assoc; reflexivity
                  | exists []; rewrite app_nil_r; reflexivity ] ].
Qed.

(** [build] with the exceptions of the library, on a valid
    configuration: it constructs the decoder and makes the calls of the
    pipeline [dataset_builder.build] describes, and returns that pipeline
    when the libraries accept all of them; otherwise it raises the
    exception of the first call refused, with the collections as they
    were and the log only extended. *)
Lemma raising_build_run (msg : input_reader_pb2.InputReader)
    (batch_size : option Z)
    (transform_input_data_fn : option (Tensors -> Tensors)) (w : World) :
  valid_tf_record_config msg = true ->
  exists (d : tf.AnyDataset) (w' : World),
    dataset_builder.build Glob decode
      (dataset_builder.InputReader_object msg) batch_size
      transform_input_data_fn w
    = (inr d, w')
    /\ if accepts_decoder lib (decoder_of msg) && accepted lib (projT2 d) then
         raising.build lib Glob decode
           (dataset_builder.InputReader_object msg) batch_size
           transform_input_data_fn w
         = (inr d, w')
       else
         exists (e : PyException) (w'' : World),
           raising.build lib Glob decode
             (dataset_builder.InputReader_object msg) batch_size
             transform_input_data_fn w
           = (inl (raised_by_library e), w'')
           /\ (decoder_error lib (decoder_of msg) = Some e
               \/ exists (A : Type) (call : tf.Dataset A),
                    dataset_error lib A call = Some e)
           /\ collections w'' = collections w
           /\ exists ws : list string, warnings w'' = warnings w ++ ws.
Proof.
  intros Hvalid.
  destruct (build_returns Glob decode msg batch_size
              transform_input_data_fn w Hvalid)
    as (records & w' & Hread & Hbuild).
  destruct (valid_tf_record_config_inv msg Hvalid) as (p & ps & Hreader).
  destruct (raising_read_dataset_run
              (fun filenames => tf.TFRecordDataset filenames 8000000)
              (input_reader_pb2.input_path
                 (input_reader_pb2.tf_record_input_reader msg)) msg w)
    as (records' & w1 & Hread' & Hraising).
  rewrite Hread in Hread'. injection Hread' as <- <-.
  eexists _, _. split; [exact Hbuild|].
  unfold raising.build, input_reader_pb2.WhichOneof.
  unfold input_reader_pb2.tf_record_input_reader in Hraising |- *.
  rewrite Hreader in Hraising |- *.
  cbn [input_reader_pb2.input_path] in Hraising |- *.
  rewrite decide_True by reflexivity.
  replace (match input_reader_pb2.label_map_path msg with
           | Some path => Some path
           | None => None
           end) with (input_reader_pb2.label_map_path msg)
    by (destruct (input_reader_pb2.label_map_path msg); reflexivity).
  fold (decoder_of msg). change (8 * 1000 * 1000) with 8000000.
  unfold mbind, R_bind, construct_decoder, accepts_decoder.
  destruct (decoder_error lib (decoder_of msg)) as [e|]; cbn [andb].
  { eexists _, _. split; [reflexivity|]. split; [left; reflexivity|].
    split; [reflexivity|]. exists []. rewrite app_nil_r. reflexivity. }
  cbv zeta.
  destruct (accepted lib records) eqn:Haccepted.
  - rewrite Hraising.
    assert (collections w' = collections w
            /\ exists ws : list string, warnings w' = warnings w ++ ws)
      as [Hcs Hlog].
    { destruct (read_dataset_returns Glob
                  (fun filenames => tf.TFRecordDataset filenames 8000000)
                  (p :: ps) msg w) as [ws Hreturns].
      unfold input_reader_pb2.tf_record_input_reader in Hread.
      rewrite Hreader in Hread. cbn [input_reader_pb2.input_path] in Hread.
      rewrite Hreturns in Hread. injection Hread as _ <-.
      split; [reflexivity|]. exists ws. reflexivity. }
    unfold library_call, mret, R_ret.
    destruct (truthy batch_size);
      destruct (input_reader_pb2.sample_1_of_n_examples msg >? 1);
      unfold tf.pack; cbn [projT1 projT2 accepted]; rewrite ?Haccepted;
      unfold accepts; ask_library; cbn [andb projT1 projT2];
      first [ congruence
            | reflexivity
            | eexists _, _; split; [reflexivity|];
              split; [right; eexists _, _; eassumption|]; split; assumption ].
  - destruct Hraising as (e & w'' & Hraised & Hcall & Hcs & Hlog).
    rewrite Hraised.
    destruct (truthy batch_size);
      destruct (input_reader_pb2.sample_1_of_n_examples msg >? 1);
      unfold tf.pack; cbn [projT2 accepted]; rewrite Haccepted;
      rewrite ?andb_false_r; cbv iota;
      eexists _, _; (split; [reflexivity|]);
      (split; [right; exact Hcall|]); split; assumption.
Qed.

(** [build] with the exceptions of the library on a configuration that
    is not valid: the builder raises ValueError itself, before any call. *)
Lemma raising_build_invalid (msg : input_reader_pb2.InputReader)
    (batch_size : option Z)
    (transform_input_data_fn : option (Tensors -> Tensors)) (w : World) :
  valid_tf_record_config msg = false ->
  exists message : string,
    raising.build lib Glob decode
      (dataset_builder.InputReader_object msg) batch_size
      transform_input_data_fn w
    = (inl (raised_by_builder (ValueError message)), w).
Proof.
  unfold valid_tf_record_config, raising.build,
    input_reader_pb2.tf_record_input_reader, input_reader_pb2.WhichOneof.
  destruct (input_reader_pb2.input_reader msg) as [|[[|p ps]]|];
    try discriminate; intros _; cbn [input_reader_pb2.input_path].
  - rewrite decide_False by discriminate. eexists. reflexivity.
  - rewrite decide_True by reflexivity. eexists. reflexivity.
  - rewrite decide_False by discriminate. eexists. reflexivity.
Qed.

(** A valid configuration is exactly one that is not rejected. *)
Lemma rejected_iff_not_valid (msg : input_reader_pb2.InputReader) :
  rejected (dataset_builder.InputReader_object msg)
  <-> valid_tf_record_config msg = false.
Proof.
  unfold rejected, valid_tf_record_config,
    input_reader_pb2.tf_record_input_reader, input_reader_pb2.WhichOneof.
  destruct (input_reader_pb2.input_reader msg) as [|[[|p ps]]|];
    cbn [input_reader_pb2.input_path]; split; try tauto; try discriminate.
  intros [Hempty|(name & Hname & Hother)]; [discriminate|congruence].
Qed.

(** ** [build] *)

(** C2 (as the code has it): a [raise] statement of [build] ends the
    call exactly when the argument is rejected (it is no [InputReader],
    the input path list of its [tf_record_input_reader] is empty, or the
    oneof is set to another member: in all, the oneof is not set to a
    [tf_record_input_reader] with an input path); what it raises is then
    a ValueError, before any library call, so the world is left as it
    was.
    On every other argument [build] constructs the decoder and makes the
    calls of the pipeline; it returns the dataset when the libraries
    accept all of them, and otherwise the exception of the call that was
    refused reaches the caller, with the collections as they were and
    the log only extended. *)
Theorem C2_build_validation_and_library_errors
    (input_reader_config : dataset_builder.PyObject) (batch_size : option Z)
    (transform_input_data_fn : option (Tensors -> Tensors)) (w : World) :
  let result :=
    raising.build lib Glob decode input_reader_config batch_size
      transform_input_data_fn w in
  (rejected input_reader_config
   <-> match input_reader_config with
       | dataset_builder.other_object => True
       | dataset_builder.InputReader_object msg =>
           valid_tf_record_config msg = false
       end)
  /\ ((exists (e : Exception) (w' : World),
         result = (inl (raised_by_builder e), w'))
      <-> rejected input_reader_config)
  /\ (forall (e : Exception) (w' : World),
        result = (inl (raised_by_builder e), w') ->
        w' = w /\ exists message : string, e = ValueError message)
  /\ (rejected input_reader_config
      \/ exists (msg : input_reader_pb2.InputReader) (d : tf.AnyDataset)
                (w' : World),
           input_reader_config = dataset_builder.InputReader_object msg
           /\ dataset_builder.build Glob decode input_reader_config
                batch_size transform_input_data_fn w
              = (inr d, w')
           /\ if accepts_decoder lib (decoder_of msg)
                 && accepted lib (projT2 d)
              then result = (inr d, w')
              else
                exists (e : PyException) (w'' : World),
                  result = (inl (raised_by_library e), w'')
                  /\ (decoder_error lib (decoder_of msg) = Some e
                      \/ exists (A : Type) (call : tf.Dataset A),
                           dataset_error lib A call = Some e)
                  /\ collections w'' = collections w
                  /\ exists ws : list string,
                       warnings w'' = warnings w ++ ws).
Proof.
  cbv zeta. split.
  { destruct input_reader_config as [msg|];
      [apply rejected_iff_not_valid|cbn; tauto]. }
  destruct input_reader_config as [msg|].
  - destruct (valid_tf_record_config msg) eqn:Hvalid.
    + assert (~ rejected (dataset_builder.InputReader_object msg)) as Hnot.
      { rewrite rejected_iff_not_valid. congruence. }
      destruct (raising_build_run msg batch_size transform_input_data_fn w
                  Hvalid) as (d & w' & Hbuild & Hraising).
      assert (forall (e : Exception) (w1 : World),
                raising.build lib Glob decode
                  (dataset_builder.InputReader_object msg) batch_size
                  transform_input_data_fn w
                <> (inl (raised_by_builder e), w1)) as Hnone.
      { intros e w1 Hraise.
        destruct (accepts_decoder lib (decoder_of msg)
                  && accepted lib (projT2 d)).
        - congruence.
        - destruct Hraising as (e' & w'' & Hraised & _). congruence. }
      split; [split|split].
      * intros (e & w1 & Hraise). destruct (Hnone e w1 Hraise).
      * intros Hrej. contradiction.
      * intros e w1 Hraise. destruct (Hnone e w1 Hraise).
      * right. exists msg, d, w'. split; [reflexivity|].
        split; [exact Hbuild|exact Hraising].
    + destruct (raising_build_invalid msg batch_size transform_input_data_fn
                  w Hvalid) as [message Hraise].
      assert (rejected (dataset_builder.InputReader_object msg)) as Hrej.
      { rewrite rejected_iff_not_valid. exact Hvalid. }
      split; [split|split].
      * intros _. exact Hrej.
      * intros _. eexists _, _. exact Hraise.
      * intros e w1 Hraise'. rewrite Hraise in Hraise'.
        injection Hraise' as <- <-. split; [reflexivity|].
        exists message. reflexivity.
      * left. exact Hrej.
  - split; [split|split].
    + intros _. exact I.
    + intros _. eexists _, _. reflexivity.
    + intros e w1 Hraise. injection Hraise as <- <-.
      split; [reflexivity|]. eexists. reflexivity.
    + left. exact I.
Qed.

(** X3: each way of rejecting the argument has its own message, and
    leaves the world as it was.  An argument that is no [InputReader] is
    reported as being of the wrong type; a [tf_record_input_reader]
    without input path as lacking an input path; an unset oneof and
    every other member of the oneof as unsupported.  A
    [tf_record_input_reader] with an input path passes the checks of
    [build]: the call ends with a dataset or with an exception of a
    library call. *)
Theorem X3_build_error_messages
    (input_reader_config : dataset_builder.PyObject) (batch_size : option Z)
    (transform_input_data_fn : option (Tensors -> Tensors)) (w : World) :
  let result :=
    raising.build lib Glob decode input_reader_config batch_size
      transform_input_data_fn w in
  match input_reader_config with
  | dataset_builder.other_object =>
      result
      = (inl (raised_by_builder
                (ValueError
                   "input_reader_config not of type input_reader_pb2.InputReader.")),
         w)
  | dataset_builder.InputReader_object msg =>
      match input_reader_pb2.input_reader msg with
      | input_reader_pb2.oneof_tf_record_input_reader r =>
          match input_reader_pb2.input_path r with
          | [] =>
              result
              = (inl (raised_by_builder
                        (ValueError
                           "At least one input path must be specified in `input_reader_config`.")),
                 w)
          | _ :: _ =>
              (exists (d : tf.AnyDataset) (w' : World), result = (inr d, w'))
              \/ exists (e : PyException) (w' : World),
                   result = (inl (raised_by_library e), w')
          end
      | input_reader_pb2.oneof_unset
      | input_reader_pb2.oneof_external_input_reader =>
          result
          = (inl (raised_by_builder
                    (ValueError "Unsupported input_reader_config.")),
             w)
      end
  end.
Proof.
  cbv zeta. destruct input_reader_config as [msg|]; [|reflexivity].
  destruct (input_reader_pb2.input_reader msg) as [|[[|p ps]]|] eqn:Hreader;
    cbn [input_reader_pb2.input_path].
  - unfold raising.build, input_reader_pb2.WhichOneof.
    rewrite Hreader. rewrite decide_False by discriminate. reflexivity.
  - unfold raising.build, input_reader_pb2.WhichOneof,
      input_reader_pb2.tf_record_input_reader.
    rewrite Hreader. rewrite decide_True by reflexivity. reflexivity.
  - assert (valid_tf_record_config msg = true) as Hvalid.
    { unfold valid_tf_record_config. rewrite Hreader. reflexivity. }
    destruct (raising_build_run msg batch_size transform_input_data_fn w
                Hvalid) as (d & w' & _ & Hraising).
    destruct (accepts_decoder lib (decoder_of msg)
              && accepted lib (projT2 d)).
    + left. eexists _, _. exact Hraising.
    + right. destruct Hraising as (e & w'' & Hraised & _).
      eexists _, _. exact Hraised.
  - unfold raising.build, input_reader_pb2.WhichOneof.
    rewrite Hreader. rewrite decide_False by discriminate. reflexivity.
Qed.


(** ** [read_dataset] *)

(** X1: [read_dataset] has no [raise] of its own and never touches the
    graph collections, whatever the library calls answer.  To the log it
    appends, in this order, the warning that [num_readers] was reduced
    (with the number of files) exactly when [num_readers] exceeds the
    number of files, and the warning about the remaining shuffling
    exactly when [shuffle] is false, the clamped number of readers
    exceeds 1 and the call that builds the file name dataset was
    accepted.  Both are logged before the interleaved read is asked for,
    so they stay in the log when that call raises. *)
Theorem X1_read_dataset_log {B : Type}
    (file_read_func : string -> tf.Dataset B) (input_files : list string)
    (config : input_reader_pb2.InputReader) (w : World) :
  exists r : Raised + tf.Dataset B,
    raising.read_dataset lib Glob file_read_func input_files config w
    = (r,
       {| collections := collections w;
          warnings :=
            warnings w
            ++ (if input_reader_pb2.num_readers config
                   >? len (Glob input_files)
                then ["num_readers has been reduced to "
                      +:+ pretty (len (Glob input_files))
                      +:+ " to match input file shards."]
                else [])
            ++ (if negb (input_reader_pb2.shuffle config)
                   && (Z.min (input_reader_pb2.num_readers config)
                         (len (Glob input_files)) >? 1)
                   && accepts lib (tf.from_tensor_slices (Glob input_files))
                then ["`shuffle` is false, but the input data stream is still slightly shuffled since `num_readers` > 1."]
                else []) |})
    /\ forall e : Exception, r <> inl (raised_by_builder e).
Proof.
  destruct w as [cs log]. run_raising. unfold accepts.
  destruct (Z.gtb_spec (input_reader_pb2.num_readers config)
              (len (Glob input_files))) as [Hgt|Hle];
    [rewrite Z.min_r by lia|rewrite Z.min_l by lia];
    destruct (input_reader_pb2.shuffle config);
    cbn [negb andb fst snd collections warnings];
    try destruct (_ >? 1);
    cbn [negb andb fst snd collections warnings];
    ask_library; cbn [andb fst snd collections warnings];
    eexists;
    (split; [rewrite <- ?app_assoc, ?app_nil_r; reflexivity
            |intros e' He; discriminate]).
Qed.

(** X2: when the glob expansion matches no file and [num_readers] is
    positive, [read_dataset] first logs that [num_readers] has been
    reduced to 0 and then asks for an interleaved read with cycle length
    0 over an empty list of file names; if the library refuses that call
    (the calls before it being accepted), its exception reaches the
    caller and the warning stays in the log. *)
Theorem X2_read_dataset_no_file {B : Type}
    (file_read_func : string -> tf.Dataset B) (input_files : list string)
    (config : input_reader_pb2.InputReader) (w : World) (e : PyException) :
  let filename_dataset :=
    tf.repeat (or_None (input_reader_pb2.num_epochs config))
      (if input_reader_pb2.shuffle config then
         tf.shuffle (input_reader_pb2.filenames_shuffle_buffer_size config)
           (tf.from_tensor_slices (@nil string))
       else tf.from_tensor_slices (@nil string)) in
  Glob input_files = [] ->
  0 < input_reader_pb2.num_readers config ->
  accepted lib filename_dataset = true ->
  dataset_error lib B
    (tf.parallel_interleave file_read_func 0
       (input_reader_pb2.read_block_length config)
       (input_reader_pb2.shuffle config) filename_dataset)
  = Some e ->
  raising.read_dataset lib Glob file_read_func input_files config w
  = (inl (raised_by_library e),
     {| collections := collections w;
        warnings :=
          warnings w
          ++ ["num_readers has been reduced to 0 to match input file shards."]
     |}).
Proof.
  cbv zeta. intros Hglob Hreaders Haccepted Hrefused.
  destruct w as [cs log]. run_raising. rewrite Hglob.
  change (len (@nil string)) with 0.
  replace (input_reader_pb2.num_readers config >? 0) with true
    by (symmetry; apply Z.gtb_lt; lia).
  cbn [fst snd collections warnings].
  destruct (input_reader_pb2.shuffle config);
    cbn [accepted] in Haccepted; unfold accepts in Haccepted;
    change (0 >? 1) with false; cbn [fst snd collections warnings];
    repeat match goal with
           | |- context [dataset_error ?l ?A ?d] =>
               let H := fresh "Hcall" in
               destruct (dataset_error l A d) eqn:H
           end;
    cbn [andb] in Haccepted; rewrite ?andb_false_r in Haccepted;
    try discriminate;
    try (injection Hrefused as <-; reflexivity).
Qed.

End raising_properties.

(** * The builder with library exceptions on concrete inputs *)

(** C2 (as stated) fails: a valid configuration, which meets none of the
    three conditions, with a batch size of -1.  The batching call is
    refused with a ValueError, which [build] does not catch: the caller
    gets a ValueError and no dataset, after the warning of
    [read_dataset] has been logged. *)
Lemma C2_negative_batch_size_raises :
  ~ rejected (dataset_builder.InputReader_object Examples.config)
  /\ exists (e : PyException) (w' : World),
       raising.build Examples.library Examples.Glob Examples.decode
         (dataset_builder.InputReader_object Examples.config) (Some (-1))
         None Examples.empty_world
       = (inl (raised_by_library e), w')
       /\ is_ValueError (raised_by_library e) = true
       /\ warnings w'
          = ["num_readers has been reduced to 2 to match input file shards."].
Proof.
  split.
  - intros [Hempty|(name & Hname & Hother)]; [discriminate|].
    injection Hname as <-. apply Hother. reflexivity.
  - eexists _, _. split; [vm_compute; reflexivity|].
    split; reflexivity.
Qed.

(** C6 (as stated) fails: without a batch size the prefetch is applied
    to the mapped records, and what it yields, hence buffers, is one
    decoded example for every record read, not batches. *)
Lemma C6_without_batch_size_prefetches_examples :
  exists (records : tf.Dataset string) (w' : World),
    let decoded :=
      tf.map
        (dataset_builder.process_fn Examples.decode
           (decoder_of Examples.unshuffled_config) None)
        64 records in
    dataset_builder.read_dataset Examples.Glob
      (fun filenames => tf.TFRecordDataset filenames 8000000)
      ["a.record"; "b.record"] Examples.unshuffled_config
      Examples.empty_world
    = (inr records, w')
    /\ dataset_builder.build Examples.Glob Examples.decode
         (dataset_builder.InputReader_object Examples.unshuffled_config)
         None None Examples.empty_world
       = (inr (tf.pack (tf.prefetch 2 decoded)), w')
    /\ tf.of_kind tf.batch_and_drop_remainder_kind
         (tf.steps (tf.prefetch 2 decoded))
       = []
    /\ forall (rt : tf.Runtime) (l : list string),
         tf.elements rt records = tf.Fin l ->
         tf.elements rt (tf.prefetch 2 decoded)
         = tf.Fin ((fun value : string => value) <$> l).
Proof.
  eexists _, _. cbv zeta. split; [vm_compute; reflexivity|].
  split; [reflexivity|]. split; [reflexivity|].
  intros rt l Hl. cbn [tf.elements] in Hl |- *. rewrite Hl. reflexivity.
Qed.

(** C6 on a valid configuration without a batch size. *)
Lemma C6_prefetch_witness :
  valid_tf_record_config Examples.unshuffled_config = true
  /\ exists (records : tf.Dataset string) (w' : World),
       dataset_builder.build Examples.Glob Examples.decode
         (dataset_builder.InputReader_object Examples.unshuffled_config)
         None None Examples.empty_world
       = (inr (tf.pack
                 (tf.prefetch 2
                    (tf.map
                       (dataset_builder.process_fn Examples.decode
                          (decoder_of Examples.unshuffled_config) None)
                       64 records))),
          w').
Proof.
  split; [reflexivity|].
  destruct (C6_prefetch_buffers_batches_or_examples Examples.Glob
              Examples.decode Examples.unshuffled_config None None
              Examples.empty_world eq_refl)
    as (records & w' & _ & Hbuild & _).
  exists records, w'. exact Hbuild.
Defined.


(** X2 on a file system without files, with a library that refuses an
    interleaved read over no file name. *)
Lemma X2_read_dataset_no_file_witness :
  Examples.no_file ["*.record"] = []
  /\ 0 < input_reader_pb2.num_readers Examples.config
  /\ exists e : PyException,
       raising.read_dataset Examples.library Examples.no_file
         (fun filenames => tf.TFRecordDataset filenames 8000000)
         ["*.record"] Examples.config Examples.empty_world
       = (inl (raised_by_library e),
          {| collections := ∅;
             warnings :=
               ["num_readers has been reduced to 0 to match input file shards."]
          |}).
Proof.
  split; [reflexivity|]. split; [reflexivity|].
  eexists.
  exact (X2_read_dataset_no_file Examples.library Examples.no_file
           (fun filenames => tf.TFRecordDataset filenames 8000000)
           ["*.record"] Examples.config Examples.empty_world _
           eq_refl eq_refl eq_refl eq_refl).
Defined.
